(** * SimpleImageSR: the checkpoint converter and the inference runner

    A shallow embedding of the two scripts of the repository,
    [scripts/convert_pth2coreml_new.py] and [scripts/quick_sr.py], and the
    properties of their pipeline contract.

    The scripts are glue code around three external collaborators (the
    network library, the conversion toolchain and the prediction runtime).
    Their calls are kept as fields of a record of collaborators, each one a
    function that returns a value or raises; the control flow around the
    calls, the exception handlers, the file-system effects and the pixel
    arithmetic are translated from the scripts. *)

From Stdlib Require Import ZArith QArith Qround Lqa.
From stdpp Require Import gmap strings list fin_maps.

Local Open Scope Z_scope.

(** ** Python run time: exceptions, outcomes of a process, dictionaries *)

Module Py.

(** Exceptions the scripts and their collaborators raise. All of them are
    subclasses of [Exception], so an [except Exception] handler catches
    every one. *)
Inductive exn : Type :=
| RuntimeError (msg : string)
| TypeError (msg : string)
| ValueError (msg : string)
| KeyError (key : string)
| StopIteration
| FileNotFoundError (p : list string)
| OSError (msg : string)
| SyntaxError (line : nat)
| LibraryError (msg : string).

(** A call either returns or raises. *)
Inductive res (A : Type) : Type :=
| Ok (a : A)
| Raise (e : exn).
Arguments Ok {A} a.
Arguments Raise {A} e.

(** How a process ends: [main] returns (exit status 0), [sys.exit n], or an
    exception nobody caught, which the interpreter reports with a traceback
    and exit status 1. *)
Inductive outcome : Type :=
| Returned
| Exited (status : Z)
| Uncaught (e : exn).

Definition exit_status (o : outcome) : Z :=
  match o with
  | Returned => 0
  | Exited n => n
  | Uncaught _ => 1
  end.

(** A [dict] with string keys, in insertion order. *)
Definition dict (A : Type) : Type := list (string * A).

(** [d.get(k)] *)
Fixpoint dict_get {A} (k : string) (d : dict A) : option A :=
  match d with
  | [] => None
  | (k', v) :: rest => if String.eqb k k' then Some v else dict_get k rest
  end.

(** [k in d] *)
Definition contains {A} (k : string) (d : dict A) : bool :=
  match dict_get k d with
  | Some _ => true
  | None => false
  end.

(** [d[k]] *)
Definition getitem {A} (d : dict A) (k : string) : res A :=
  match dict_get k d with
  | Some v => Ok v
  | None => Raise (KeyError k)
  end.

(** [next(iter(d.keys()))] *)
Definition first_key {A} (d : dict A) : res string :=
  match d with
  | [] => Raise StopIteration
  | (k, _) :: _ => Ok k
  end.

End Py.

(** ** Tensors of the network library

    An element of a [float32] tensor is a finite number, an infinity or a
    NaN. Finite values are kept as exact rationals: the bounds proved below
    are closed under rounding to nearest, because 0, 1 and 255 are
    representable and rounding is monotone. *)

Module Torch.

Inductive f32 : Type :=
| NaN
| NegInf
| PosInf
| Fin (q : Q).

(** [a < b] on elements; every comparison with a NaN is false. *)
Definition lt (a b : f32) : bool :=
  match a, b with
  | NaN, _ | _, NaN => false
  | _, NegInf => false
  | NegInf, _ => true
  | PosInf, _ => false
  | Fin _, PosInf => true
  | Fin x, Fin y => negb (Qle_bool y x)
  end.

(** [a * b] on elements. *)
Definition mul (a b : f32) : f32 :=
  match a, b with
  | NaN, _ | _, NaN => NaN
  | Fin x, Fin y => Fin (x * y)
  | Fin x, PosInf | PosInf, Fin x =>
      if Qle_bool x 0 then (if Qle_bool 0 x then NaN else NegInf) else PosInf
  | Fin x, NegInf | NegInf, Fin x =>
      if Qle_bool x 0 then (if Qle_bool 0 x then NaN else PosInf) else NegInf
  | PosInf, PosInf | NegInf, NegInf => PosInf
  | PosInf, NegInf | NegInf, PosInf => NaN
  end.

Record tensor : Type := { shape : list nat; elems : list f32 }.

(** [torch.clamp(t, lo, hi)], elementwise: a value below [lo] becomes [lo],
    a value above [hi] becomes [hi], any other value (a NaN too, which is
    neither below nor above) is kept. *)
Definition clamp1 (lo hi x : f32) : f32 :=
  if lt x lo then lo else if lt hi x then hi else x.

Definition clamp (t : tensor) (lo hi : f32) : tensor :=
  {| shape := shape t; elems := map (clamp1 lo hi) (elems t) |}.

(** [t * c] for a Python float [c]. *)
Definition mul_scalar (t : tensor) (c : f32) : tensor :=
  {| shape := shape t; elems := map (fun x => mul x c) (elems t) |}.

(** [lo <= x <= hi] for an element; false for a NaN. *)
Definition in_range (lo hi : Q) (x : f32) : Prop :=
  match x with
  | Fin q => (lo <= q /\ q <= hi)%Q
  | _ => False
  end.

(** What the output transform makes of an element [y] of the base model:
    a NaN stays a NaN, any other value ends in [0, 255]. *)
Definition transformed (y r : f32) : Prop :=
  match y with
  | NaN => r = NaN
  | _ => in_range 0 255 r
  end.

(** A network is its forward function. *)
Definition network : Type := tensor -> tensor.

(** The weights under one key of a checkpoint. *)
Definition state_dict : Type := list (string * tensor).

(** A checkpoint file: a [dict] from top-level keys to weights, in
    insertion order. *)
Definition checkpoint : Type := Py.dict state_dict.

End Torch.

(** ** Arrays *)

Module Np.

Inductive dtype : Type := uint8 | int32 | float32 | float64.

(** [np.issubdtype(d, np.floating)] *)
Definition is_floating (d : dtype) : bool :=
  match d with
  | float32 | float64 => true
  | uint8 | int32 => false
  end.

(** An array: element type, shape and the elements in row-major order.
    Pixel arrays hold finite values, kept as exact rationals; a float array
    with a NaN or an infinity among its samples is outside this
    development. *)
Record ndarray : Type := { dtype_of : dtype; shape : list nat; data : list Q }.

Definition Qmaximum (a b : Q) : Q := if Qle_bool a b then b else a.
Definition Qminimum (a b : Q) : Q := if Qle_bool a b then a else b.

(** [a.max()]; raises on an array without elements. *)
Definition max (a : ndarray) : Py.res Q :=
  match data a with
  | [] => Py.Raise (Py.ValueError "zero-size array to reduction operation maximum")
  | x :: xs => Py.Ok (fold_left Qmaximum xs x)
  end.

(** [a.min()] *)
Definition min (a : ndarray) : Py.res Q :=
  match data a with
  | [] => Py.Raise (Py.ValueError "zero-size array to reduction operation minimum")
  | x :: xs => Py.Ok (fold_left Qminimum xs x)
  end.

(** [a * c] for a Python float [c]: an integer array becomes [float64], a
    [float32] array stays [float32]. *)
Definition mul_float (a : ndarray) (c : Q) : ndarray :=
  {| dtype_of := match dtype_of a with
              | float32 => float32
              | _ => float64
              end;
     shape := shape a;
     data := map (fun x => (x * c)%Q) (data a) |}.

Definition clip1 (lo hi x : Q) : Q := Qminimum (Qmaximum x lo) hi.

(** [np.clip(a, lo, hi)] and [a.clip(lo, hi)] *)
Definition clip (a : ndarray) (lo hi : Q) : ndarray :=
  {| dtype_of := dtype_of a; shape := shape a; data := map (clip1 lo hi) (data a) |}.

(** The conversion of one element to [uint8]: the fraction is discarded
    (truncation toward zero, the C cast), and the integer is reduced to 8
    bits. *)
Definition to_uint8 (x : Q) : Z :=
  (Z.quot (Qnum x) (Zpos (Qden x))) mod 256.

(** [p] is [v] without its fraction, as an 8-bit value. *)
Definition truncates (v p : Q) : Prop :=
  exists z : Z, p = inject_Z z /\ 0 <= z <= 255
                /\ (inject_Z z <= v /\ v < inject_Z z + 1)%Q.

(** [a.astype(np.uint8)] *)
Definition astype_uint8 (a : ndarray) : ndarray :=
  {| dtype_of := uint8; shape := shape a;
     data := map (fun x => inject_Z (to_uint8 x)) (data a) |}.

(** [a.flatten()] *)
Definition flatten (a : ndarray) : ndarray :=
  {| dtype_of := dtype_of a; shape := [length (data a)]; data := data a |}.

End Np.

(** ** Images of the imaging library *)

Module PIL.

(** Image modes: 8-bit grey, grey with alpha, colour, colour with alpha,
    32-bit integer and 32-bit float. *)
Inductive mode : Type := L | LA | RGB | RGBA | I | F.

Definition bands (m : mode) : nat :=
  match m with
  | L | I | F => 1
  | LA => 2
  | RGB => 3
  | RGBA => 4
  end.

Record image : Type :=
  { im_mode : mode; width : nat; height : nat; pixels : list Q }.

(** [np.array(img)]: the element type follows the mode, the shape is
    (height, width) for one band and (height, width, bands) otherwise. *)
Definition np_array (img : image) : Np.ndarray :=
  {| Np.dtype_of := match im_mode img with
                 | L | LA | RGB | RGBA => Np.uint8
                 | I => Np.int32
                 | F => Np.float32
                 end;
     Np.shape := match bands (im_mode img) with
                 | 1%nat => [height img; width img]
                 | b => [height img; width img; b]
                 end;
     Np.data := pixels img |}.

(** [Image.fromarray(a)] for the arrays the runner builds, all of element
    type [uint8]; other element types and shapes are refused. *)
Definition fromarray (a : Np.ndarray) : Py.res image :=
  match Np.dtype_of a, Np.shape a with
  | Np.uint8, [h; w] | Np.uint8, [h; w; 1%nat] =>
      Py.Ok {| im_mode := L; width := w; height := h; pixels := Np.data a |}
  | Np.uint8, [h; w; 2%nat] =>
      Py.Ok {| im_mode := LA; width := w; height := h; pixels := Np.data a |}
  | Np.uint8, [h; w; 3%nat] =>
      Py.Ok {| im_mode := RGB; width := w; height := h; pixels := Np.data a |}
  | Np.uint8, [h; w; 4%nat] =>
      Py.Ok {| im_mode := RGBA; width := w; height := h; pixels := Np.data a |}
  | _, _ => Py.Raise (Py.TypeError "Cannot handle this data type")
  end.

(** The samples of [n] pixels in mode [m], as red, green and blue. *)
Fixpoint pixels_rgb (m : mode) (n : nat) (px : list Q) : list Q :=
  match n with
  | O => []
  | S n' =>
      match m, px with
      | L, v :: rest => v :: v :: v :: pixels_rgb m n' rest
      | LA, v :: _ :: rest => v :: v :: v :: pixels_rgb m n' rest
      | RGB, r :: g :: b :: rest => r :: g :: b :: pixels_rgb m n' rest
      | RGBA, r :: g :: b :: _ :: rest => r :: g :: b :: pixels_rgb m n' rest
      | (I | F), v :: rest =>
          let c := inject_Z (Np.to_uint8 (Np.clip1 0 255 v)) in
          c :: c :: c :: pixels_rgb m n' rest
      | _, _ => []
      end
  end.

(** [img.convert("RGB")]: three 8-bit bands, the same size. *)
Definition convert_RGB (img : image) : image :=
  {| im_mode := RGB; width := width img; height := height img;
     pixels := pixels_rgb (im_mode img) (width img * height img) (pixels img) |}.

End PIL.

(** ** Descriptions and packages of the conversion toolchain *)

Module CoreML.

(** [ct.RangeDim(lower_bound, upper_bound)]: a dimension that takes every
    value from the lower to the upper bound, both included. *)
Record RangeDim : Type := { lower_bound : Z; upper_bound : Z }.

Inductive dim : Type :=
| Fixed (n : Z)
| Range (r : RangeDim).

Inductive colorlayout : Type := BGR | RGB | GRAYSCALE.

(** [ct.ImageType(name, shape, color_layout, bias, scale)]; a field the
    caller leaves out is [None], the scale defaults to 1. *)
Record ImageType : Type :=
  { name : string;
    shape : option (list dim);
    color_layout : colorlayout;
    bias : option (list Q);
    scale : Q }.

Inductive precision : Type := FLOAT16 | FLOAT32.
Inductive target : Type := macOS14 | iOS17.
Inductive ComputeUnit : Type := ALL.

(** The keyword arguments of [ct.convert]. *)
Record conversion_options : Type :=
  { source : string;
    inputs : list ImageType;
    outputs : list ImageType;
    convert_to : string;
    minimum_deployment_target : target;
    compute_precision : precision;
    compute_units : ComputeUnit }.

(** An exported package: the declared descriptions, the settings baked in
    at export time, and the program. *)
Record mlmodel : Type :=
  { declared_inputs : list ImageType;
    declared_outputs : list ImageType;
    deployment_target : target;
    package_precision : precision;
    program : Torch.tensor -> Torch.tensor;
    weight_bits : option nat }.



(** A range whose lower bound exceeds its upper bound. *)
Definition empty_range (d : dim) : bool :=
  match d with
  | Fixed _ => false
  | Range r => bool_decide (upper_bound r < lower_bound r)
  end.

Definition has_empty_range (o : conversion_options) : bool :=
  existsb (fun t => match shape t with
                    | Some ds => existsb empty_range ds
                    | None => false
                    end) (inputs o).

End CoreML.

(** ** The file system and the effects of a run *)

Module Sys.

(** A path, as its components; the empty path is the working directory. *)
Abbreviation path := (list string).

Inductive file : Type :=
| FImage (img : PIL.image)
| FArray (a : Np.ndarray)
| FFigure (values : list Q) (bins : nat) (lo hi : Q)
| FCheckpoint (ckpt : Torch.checkpoint)
| FPackage (m : CoreML.mlmodel).

Record filesystem : Type :=
  { dirs : gset path;
    files : gmap path file }.

(** The lines the two scripts print; the constructor names the [print]. *)
Inductive message : Type :=
(* quick_sr.py *)
| MsgModelLoadFailed (e : Py.exn)
| MsgInferenceTime
| MsgPredictFailed (e : Py.exn)
| MsgOutputKeyFound (key : string)
| MsgOutType (key : string)
| MsgPillowMode (m : PIL.mode)
| MsgDebugArray (d : Np.dtype) (shape : list nat) (lo hi : Q)
| MsgOutputStats (lo hi : Q) (d : Np.dtype) (shape : list nat)
| MsgFloatSaved (p : path)
| MsgFloatStats (lo hi : Q)
| MsgFloatHistSaved (p : path)
| MsgSaved (p : path)
| MsgHistSaved (p : path)
(* convert_pth2coreml_new.py *)
| MsgInfoInput
| MsgInfoOutput
| MsgInfoShape (lo hi : Z)
| MsgDebugType
| MsgDebugValue
| MsgInfoFP16
| MsgSaving (p : path)
| MsgComplete
| MsgConvertError (e : Py.exn)
| MsgTraceback (e : Py.exn).

(** What a run does, in order: a line printed, a collaborator entered
    (logged before it returns or raises), a directory asked for, a file
    written. *)
Inductive event : Type :=
| Stdout (m : message)
| Stderr (m : message)
| Call (f : string)
| Makedirs (p : path)
| Write (p : path).

Record world : Type :=
  { fs : filesystem;
    log : list event }.

(** A statement: from a world to a result and a world. *)
Definition M (A : Type) : Type := world -> Py.res A * world.

Definition ret {A} (a : A) : M A := fun w => (Py.Ok a, w).

Definition bind {A B} (m : M A) (k : A -> M B) : M B :=
  fun w =>
    match m w with
    | (Py.Ok a, w') => k a w'
    | (Py.Raise e, w') => (Py.Raise e, w')
    end.

Definition raise {A} (e : Py.exn) : M A := fun w => (Py.Raise e, w).

(** A result that is computed in the process itself. *)
Definition lift {A} (r : Py.res A) : M A := fun w => (r, w).

(** [try: m  except Exception as e: ...]: the exception becomes a value. *)
Definition try {A} (m : M A) : M (Py.exn + A) :=
  fun w =>
    match m w with
    | (Py.Ok a, w') => (Py.Ok (inr a), w')
    | (Py.Raise e, w') => (Py.Ok (inl e), w')
    end.

Definition emit (e : event) : M unit :=
  fun w => (Py.Ok tt, {| fs := fs w; log := log w ++ [e] |}).

Definition print (m : message) : M unit := emit (Stdout m).
Definition eprint (m : message) : M unit := emit (Stderr m).

(** A call of the collaborator [f]. *)
Definition call {A} (f : string) (r : Py.res A) : M A :=
  fun w => (r, {| fs := fs w; log := log w ++ [Call f] |}).

(** The directory a path lies in. *)
Definition dirname (p : path) : path := removelast p.

Definition is_dir (f : filesystem) (p : path) : bool :=
  bool_decide (p = []) || bool_decide (p ∈ dirs f).

(** The path and the directories above it. *)
Fixpoint prefixes (p : path) : list path :=
  match p with
  | [] => []
  | c :: rest => [c] :: map (cons c) (prefixes rest)
  end.

(** Opening a file for writing: its directory must exist. *)
Definition open_write (p : path) (c : file) : M unit :=
  fun w =>
    if bool_decide (p = []) || negb (is_dir (fs w) (dirname p)) then
      (Py.Raise (Py.FileNotFoundError p), w)
    else
      (Py.Ok tt,
       {| fs := {| dirs := dirs (fs w); files := <[p := c]> (files (fs w)) |};
          log := log w ++ [Write p] |}).

(** The collaborator [f] writes the file [p]. *)
Definition write_file (f : string) (p : path) (c : file) : M unit :=
  bind (emit (Call f)) (fun _ => open_write p c).

(** [os.makedirs(p, exist_ok=True)] *)
Definition makedirs (p : path) : M unit :=
  bind (emit (Makedirs p)) (fun _ w =>
    match files (fs w) !! p with
    | Some _ => (Py.Raise (Py.OSError "FileExistsError"), w)
    | None =>
        (Py.Ok tt,
         {| fs := {| dirs := list_to_set (prefixes p) ∪ dirs (fs w);
                     files := files (fs w) |};
            log := log w |})
    end).

(** Opening a file for reading. *)
Definition open_read (p : path) : M file :=
  fun w =>
    match files (fs w) !! p with
    | Some c => (Py.Ok c, w)
    | None => (Py.Raise (Py.FileNotFoundError p), w)
    end.

(** The collaborator [f] reads the file [p]. *)
Definition read_file (f : string) (p : path) : M file :=
  bind (emit (Call f)) (fun _ => open_read p).

(** The world after the events [es], the files as they were. *)
Definition logged (w : world) (es : list event) : world :=
  {| fs := fs w; log := log w ++ es |}.

(** [os.path.join(d, name)] *)
Definition join (d : path) (name : string) : path := d ++ [name].

(** The end of the process when [m] is the whole program. *)
Definition run (m : M unit) (w : world) : Py.outcome * world :=
  match m w with
  | (Py.Ok _, w') => (Py.Returned, w')
  | (Py.Raise e, w') => (Py.Uncaught e, w')
  end.

End Sys.

Declare Scope py_scope.
Delimit Scope py_scope with py.
Notation "'let*' x := m 'in' k" := (Sys.bind m (fun x => k))
  (at level 10, x name, m at level 200, k at level 200) : py_scope.
Notation "m >> k" := (Sys.bind m (fun _ => k))
  (at level 65, right associativity) : py_scope.

(** ** The converter: [scripts/convert_pth2coreml_new.py] *)

Module Converter.
Import Py Sys.
Local Open Scope py_scope.

(** *** The text of the module, as the compiler reads it

    The interpreter compiles the whole file before it runs a statement of
    it. The import statements are kept as their tokens and parsed by the
    grammar of the language; the class, the functions and the final [if]
    are the definitions below. *)

Inductive keyword : Type := KW_import | KW_from | KW_as.
Inductive op : Type := Dot | LPar | RPar | Comma | Star | Slash.
Inductive token : Type :=
| NAME (s : string)
| KEYWORD (k : keyword)
| OP (o : op)
| NEWLINE.

Record alias : Type := { imported : list string; asname : option string }.

Inductive import_stmt : Type :=
| Import (names : list alias)
| ImportFrom (module : list string) (names : list alias)
| ImportStar (module : list string).

(** dotted_name: NAME ('.' NAME)* *)
Fixpoint dotted_name (ts : list token) : option (list string * list token) :=
  match ts with
  | NAME n :: OP Dot :: ts' =>
      match dotted_name ts' with
      | Some (ns, r) => Some (n :: ns, r)
      | None => None
      end
  | NAME n :: r => Some ([n], r)
  | _ => None
  end.

(** import_from_as_names: ','.(NAME ['as' NAME])+ ; a comma that no name
    follows is left to the caller. *)
Fixpoint import_from_as_names (ts : list token) : option (list alias * list token) :=
  let one n a r r' :=
    match import_from_as_names r' with
    | Some (ns, r'') => Some ({| imported := [n]; asname := a |} :: ns, r'')
    | None => Some ([{| imported := [n]; asname := a |}], r)
    end in
  match ts with
  | NAME n :: KEYWORD KW_as :: NAME a :: ((OP Comma :: r') as r) => one n (Some a) r r'
  | NAME n :: KEYWORD KW_as :: NAME a :: r =>
      Some ([{| imported := [n]; asname := Some a |}], r)
  | NAME n :: ((OP Comma :: r') as r) => one n None r r'
  | NAME n :: r => Some ([{| imported := [n]; asname := None |}], r)
  | _ => None
  end.

(** import_from_targets: '(' import_from_as_names [','] ')' |
    import_from_as_names | '*' ; then the end of the line. *)
Definition import_from_targets (ts : list token) : option (list alias) :=
  match ts with
  | OP LPar :: ts' =>
      match import_from_as_names ts' with
      | Some (ns, [OP RPar; NEWLINE]) => Some ns
      | Some (ns, [OP Comma; OP RPar; NEWLINE]) => Some ns
      | _ => None
      end
  | _ =>
      match import_from_as_names ts with
      | Some (ns, [NEWLINE]) => Some ns
      | _ => None
      end
  end.

(** dotted_as_names: ','.(dotted_name ['as' NAME])+ ; then the end of the
    line. The recursion is on the number of tokens left. *)
Fixpoint dotted_as_names (n : nat) (ts : list token) : option (list alias) :=
  match n with
  | O => None
  | S n' =>
      match dotted_name ts with
      | Some (d, KEYWORD KW_as :: NAME a :: OP Comma :: r) =>
          option_map (cons {| imported := d; asname := Some a |}) (dotted_as_names n' r)
      | Some (d, [KEYWORD KW_as; NAME a; NEWLINE]) =>
          Some [{| imported := d; asname := Some a |}]
      | Some (d, OP Comma :: r) =>
          option_map (cons {| imported := d; asname := None |}) (dotted_as_names n' r)
      | Some (d, [NEWLINE]) => Some [{| imported := d; asname := None |}]
      | _ => None
      end
  end.

(** import_stmt: import_name | import_from *)
Definition parse_import (ts : list token) : option import_stmt :=
  match ts with
  | KEYWORD KW_import :: ts' => option_map Import (dotted_as_names (length ts') ts')
  | KEYWORD KW_from :: ts' =>
      match dotted_name ts' with
      | Some (m, [KEYWORD KW_import; OP Star; NEWLINE]) => Some (ImportStar m)
      | Some (m, KEYWORD KW_import :: ts'') =>
          option_map (ImportFrom m) (import_from_targets ts'')
      | _ => None
      end
  | _ => None
  end.

(** A statement at the top level of the file, with the line it starts at. *)
Inductive toplevel : Type :=
| Docstring (line : nat)
| ImportLine (line : nat) (ts : list token)
| ClassDef (line : nat) (name : string)
| FunctionDef (line : nat) (name : string)
| IfMain (line : nat).

(** The file, top to bottom. *)
Definition module_source : list toplevel :=
  [ Docstring 2;
    ImportLine 17 [KEYWORD KW_import; NAME "argparse"; NEWLINE];
    ImportLine 18 [KEYWORD KW_import; NAME "sys"; NEWLINE];
    ImportLine 20 [KEYWORD KW_import; NAME "coremltools"; KEYWORD KW_as; NAME "ct"; NEWLINE];
    ImportLine 21 [KEYWORD KW_import; NAME "numpy"; KEYWORD KW_as; NAME "np"; NEWLINE];
    ImportLine 22 [KEYWORD KW_import; NAME "torch"; NEWLINE];
    ImportLine 23 [KEYWORD KW_from; NAME "basicsr"; OP Dot; NAME "archs"; OP Dot;
                   NAME "rrdbnet_arch"; KEYWORD KW_import; NAME "RRDBNet"; NEWLINE];
    ImportLine 24 [KEYWORD KW_from; NAME "coremltools"; OP Dot; NAME "models"; OP Dot;
                   NAME "neural_network"; KEYWORD KW_import; NAME "quantization_utils";
                   NEWLINE];
    ImportLine 26 [KEYWORD KW_from; NAME "coremltools"; OP Dot; NAME "models"; OP Dot;
                   NAME "neural_network"; OP Dot; NAME "quantization_utils";
                   KEYWORD KW_import; OP LPar; OP Slash; OP RPar; NEWLINE];
    ClassDef 31 "ClampedModel";
    FunctionDef 61 "load_rrdbnet";
    FunctionDef 80 "main";
    IfMain 185 ].

(** Compiling the file: every statement must parse. *)
Fixpoint compile (src : list toplevel) : res (list import_stmt) :=
  match src with
  | [] => Ok []
  | ImportLine line ts :: rest =>
      match parse_import ts with
      | None => Raise (SyntaxError line)
      | Some i =>
          match compile rest with
          | Ok is' => Ok (i :: is')
          | Raise e => Raise e
          end
      end
  | _ :: rest => compile rest
  end.

(** *** The collaborators *)

Record toolchain : Type :=
  { (** [model.load_state_dict(weights, strict=True)], then [model.eval()],
        on the network that [RRDBNet(...)] has built: the network with these
        weights *)
    load_state_dict : Torch.state_dict -> res Torch.network;
    (** [torch.rand(1, 3, n, n, dtype=torch.float32)] *)
    torch_rand : Z -> res Torch.tensor;
    (** [torch.jit.trace(model, example)] *)
    jit_trace : Torch.network -> Torch.tensor -> res Torch.network;
    (** the compilation inside [ct.convert(traced, **options)] *)
    convert_program :
      Torch.network -> CoreML.conversion_options -> res (Torch.tensor -> Torch.tensor);
    (** the pass over the weights inside
        [quantization_utils.quantize_weights(mlmodel, nbits)] *)
    quantize_program :
      CoreML.mlmodel -> nat -> res (Torch.tensor -> Torch.tensor) }.

(** [ct.convert]: the package carries the descriptions, the target and the
    precision it was asked for. *)
Definition ct_convert (tc : toolchain) (traced : Torch.network)
    (o : CoreML.conversion_options) : res CoreML.mlmodel :=
  match convert_program tc traced o with
  | Ok prog =>
      Ok {| CoreML.declared_inputs := CoreML.inputs o;
            CoreML.declared_outputs := CoreML.outputs o;
            CoreML.deployment_target := CoreML.minimum_deployment_target o;
            CoreML.package_precision := CoreML.compute_precision o;
            CoreML.program := prog;
            CoreML.weight_bits := None |}
  | Raise e => Raise e
  end.

(** [quantize_weights]: a pass over the weights; the descriptions and the
    settings of the package stay. *)
Definition quantize_weights (tc : toolchain) (m : CoreML.mlmodel) (nbits : nat)
    : res CoreML.mlmodel :=
  match quantize_program tc m nbits with
  | Ok prog =>
      Ok {| CoreML.declared_inputs := CoreML.declared_inputs m;
            CoreML.declared_outputs := CoreML.declared_outputs m;
            CoreML.deployment_target := CoreML.deployment_target m;
            CoreML.package_precision := CoreML.package_precision m;
            CoreML.program := prog;
            CoreML.weight_bits := Some nbits |}
  | Raise e => Raise e
  end.

(** [torch.load(path, map_location="cpu")] *)
Definition torch_load (p : path) : M Torch.checkpoint :=
  let* f := read_file "torch.load" p in
  match f with
  | FCheckpoint c => ret c
  | _ => raise (LibraryError "UnpicklingError")
  end.

(** [mlmodel.save(path)] *)
Definition save (m : CoreML.mlmodel) (p : path) : M unit :=
  write_file "MLModel.save" p (FPackage m).

(** *** [class ClampedModel] *)

Record ClampedModel : Type := { base_model : Torch.network }.

Definition forward (self : ClampedModel) (x : Torch.tensor) : Torch.tensor :=
  let out := base_model self x in
  Torch.mul_scalar (Torch.clamp out (Torch.Fin 0) (Torch.Fin 1)) (Torch.Fin 255).

(** *** [load_rrdbnet] *)

(** The [for key in ...: if key in ckpt: ...; break] loop and its [else]. *)
Fixpoint load_first_key (tc : toolchain) (keys : list string)
    (ckpt : Torch.checkpoint) : M Torch.network :=
  match keys with
  | [] => raise (RuntimeError "params_ema または params キーが見つかりません")
  | key :: keys' =>
      if contains key ckpt then
        let* weights := lift (getitem ckpt key) in
        call "load_state_dict" (load_state_dict tc weights)
      else load_first_key tc keys' ckpt
  end.

Definition load_rrdbnet (tc : toolchain) (pth_path : path) : M Torch.network :=
  emit (Call "RRDBNet") >>
  let* ckpt := torch_load pth_path in
  load_first_key tc ["params_ema"; "params"] ckpt.

(** *** [main] *)

Inductive target_choice : Type := mac | ios.

(** The parsed command line. *)
Record args : Type :=
  { pth : path;
    out : path;
    float16 : bool;
    target : target_choice;
    min_dim : Z;
    max_dim : Z;
    trace_size : Z }.

Definition target_map (t : target_choice) : CoreML.target :=
  match t with
  | mac => CoreML.macOS14
  | ios => CoreML.iOS17
  end.

Definition input_desc (a : args) : CoreML.ImageType :=
  {| CoreML.name := "input_image";
     CoreML.shape :=
       Some [ CoreML.Fixed 1;
              CoreML.Fixed 3;
              CoreML.Range {| CoreML.lower_bound := min_dim a;
                              CoreML.upper_bound := max_dim a |};
              CoreML.Range {| CoreML.lower_bound := min_dim a;
                              CoreML.upper_bound := max_dim a |} ];
     CoreML.color_layout := CoreML.BGR;
     CoreML.bias := Some [0%Q; 0%Q; 0%Q];
     CoreML.scale := (1 / 255)%Q |}.

Definition output_desc : CoreML.ImageType :=
  {| CoreML.name := "output_image";
     CoreML.shape := None;
     CoreML.color_layout := CoreML.BGR;
     CoreML.bias := None;
     CoreML.scale := 1%Q |}.

Definition conversion_options (a : args) : CoreML.conversion_options :=
  {| CoreML.source := "pytorch";
     CoreML.inputs := [input_desc a];
     CoreML.outputs := [output_desc];
     CoreML.convert_to := "mlprogram";
     CoreML.minimum_deployment_target := target_map (target a);
     CoreML.compute_precision :=
       if float16 a then CoreML.FLOAT16 else CoreML.FLOAT32;
     CoreML.compute_units := CoreML.ALL |}.

(** The body of the [try]. *)
Definition convert_and_save (tc : toolchain) (a : args) : M unit :=
  let* model := load_rrdbnet tc (pth a) in
  let model := {| base_model := model |} in
  let* example_input := call "torch.rand" (torch_rand tc (trace_size a)) in
  let* traced := call "torch.jit.trace" (jit_trace tc (forward model) example_input) in
  print MsgInfoInput >>
  print MsgInfoOutput >>
  print (MsgInfoShape (min_dim a) (max_dim a)) >>
  let* mlmodel := call "ct.convert" (ct_convert tc traced (conversion_options a)) in
  print MsgDebugType >>
  print MsgDebugValue >>
  let* mlmodel := (if float16 a then
                     print MsgInfoFP16 >>
                     call "quantize_weights" (quantize_weights tc mlmodel 16)
                   else ret mlmodel) in
  print (MsgSaving (out a)) >>
  save mlmodel (out a) >>
  print MsgComplete.

(** [main], after the command line is parsed: the [try] and its handler,
    which reports the exception and ends the process with status 1. *)
Definition main (tc : toolchain) (a : args) (w : world) : outcome * world :=
  match convert_and_save tc a w with
  | (Ok _, w') => (Returned, w')
  | (Raise e, w') =>
      (Exited 1, snd ((eprint (MsgConvertError e) >> eprint (MsgTraceback e)) w'))
  end.

(** Running the script: the file is compiled, then [main] is called. *)
Definition run_script (tc : toolchain) (a : args) (w : world) : outcome * world :=
  match compile module_source with
  | Raise e => (Uncaught e, w)
  | Ok _ => main tc a w
  end.

End Converter.

(** ** The inference runner: [scripts/quick_sr.py] *)

Module Runner.
Import Py Sys.
Local Open Scope py_scope.

(** A value of a prediction result. *)
Inductive pyobj : Type :=
| Image (img : PIL.image)
| Array (a : Np.ndarray)
| Other (type_name : string).

(** The prediction runtime. *)
Record runtime : Type :=
  { (** [ct.models.MLModel(path)] *)
    MLModel : path -> filesystem -> res CoreML.mlmodel;
    (** [mlmodel.predict({"input_image": inp})] *)
    predict : CoreML.mlmodel -> dict PIL.image -> res (dict pyobj) }.

(** The parsed command line. *)
Record args : Type :=
  { model : path;
    input : path;
    output : path;
    hist_dir : path }.

(** [Image.open(path)] *)
Definition Image_open (p : path) : M PIL.image :=
  let* f := read_file "Image.open" p in
  match f with
  | FImage img => ret img
  | _ => raise (OSError "UnidentifiedImageError")
  end.

(** [img.save(path)], for a format that keeps every pixel, such as the PNG
    the output argument is documented to be. *)
Definition Image_save (img : PIL.image) (p : path) : M unit :=
  write_file "Image.save" p (FImage img).

(** [load_image] *)
Definition load_image (p : path) : M PIL.image :=
  let* img := Image_open p in
  ret (PIL.convert_RGB img).

(** The conversion of the output array to 8 bits, lines 132 to 136 (and
    the same lines of [save_image]). *)
Definition to_uint8_image (img : Np.ndarray) : res Np.ndarray :=
  match Np.max img with
  | Raise e => Raise e
  | Ok m =>
      if Qle_bool m 1 then
        Ok (Np.astype_uint8 (Np.clip (Np.mul_float img 255) 0 255))
      else
        Ok (Np.astype_uint8 (Np.clip img 0 255))
  end.

(** [save_image] *)
Definition save_image (arr : pyobj) (p : path) : M unit :=
  match arr with
  | Image im =>
      let* img := lift (to_uint8_image (PIL.np_array im)) in
      let* pic := lift (PIL.fromarray img) in
      Image_save pic p
  | _ => raise (TypeError "unsupported type, an Image.Image instance is needed")
  end.

(** Lines 48 to 52: the model is loaded. *)
Definition load_model (rt : runtime) (a : args) : M CoreML.mlmodel :=
  fun w => call "MLModel" (MLModel rt (model a) (fs w)) w.

(** Lines 58 to 67, the body of the second [try]. *)
Definition run_predict (rt : runtime) (mlmodel : CoreML.mlmodel)
    (inp : PIL.image) : M (dict pyobj) :=
  let* result := call "predict" (predict rt mlmodel [("input_image"%string, inp)]) in
  print MsgInferenceTime >>
  ret result.

(** Lines 73 to 81: the output value and its key. *)
Definition select_output (result : dict pyobj) : M (string * pyobj) :=
  if contains "output_image" result then
    let* out := lift (getitem result "output_image") in
    ret ("output_image"%string, out)
  else
    let* out_key := lift (first_key result) in
    print (MsgOutputKeyFound out_key) >>
    let* out := lift (getitem result out_key) in
    ret (out_key, out).

(** Lines 84 to 87: the output must be an image. *)
Definition check_image (out : pyobj) : M PIL.image :=
  match out with
  | Image img => ret img
  | _ => raise (TypeError "the model output is not an Image")
  end.

(** Lines 89 to 110: the diagnostics of the output. *)
Definition inspect (out_key : string) (out : PIL.image) : M Np.ndarray :=
  print (MsgOutType out_key) >>
  print (MsgPillowMode (PIL.im_mode out)) >>
  let _debug_img_np := PIL.np_array out in
  let* lo := lift (Np.min _debug_img_np) in
  let* hi := lift (Np.max _debug_img_np) in
  print (MsgDebugArray (Np.dtype_of _debug_img_np) (Np.shape _debug_img_np) lo hi) >>
  let out_np := PIL.np_array out in
  let* lo := lift (Np.min out_np) in
  let* hi := lift (Np.max out_np) in
  print (MsgOutputStats lo hi (Np.dtype_of out_np) (Np.shape out_np)) >>
  ret out_np.

(** Lines 113 to 127: the raw values and their histogram, for an array of
    floating-point elements. *)
Definition dump_float (a : args) (out_np : Np.ndarray) : M unit :=
  if Np.is_floating (Np.dtype_of out_np) then
    write_file "np.save" (join (hist_dir a) "output_float.npy") (FArray out_np) >>
    print (MsgFloatSaved (join (hist_dir a) "output_float.npy")) >>
    let* lo := lift (Np.min out_np) in
    let* hi := lift (Np.max out_np) in
    print (MsgFloatStats lo hi) >>
    write_file "plt.savefig" (join (hist_dir a) "hist_output_float.png")
               (FFigure (Np.data (Np.flatten out_np)) 100 0 1) >>
    print (MsgFloatHistSaved (join (hist_dir a) "hist_output_float.png"))
  else ret tt.

(** Lines 132 to 138: the output image is written. *)
Definition save_output (a : args) (out : PIL.image) : M unit :=
  let* img := lift (to_uint8_image (PIL.np_array out)) in
  let* pic := lift (PIL.fromarray img) in
  Image_save pic (output a) >>
  print (MsgSaved (output a)).

(** Lines 141 to 160: the directory of the histograms is made and the
    histogram of the output is written. *)
Definition save_histogram (a : args) (out_np : Np.ndarray) : M unit :=
  makedirs (hist_dir a) >>
  let hist_path := join (hist_dir a) "hist_output.png" in
  let flat := Np.flatten out_np in
  let* values :=
    (if Np.is_floating (Np.dtype_of flat) then
       let* m := lift (Np.max flat) in
       if Qle_bool m 1 then ret (Np.data (Np.mul_float flat 255))
       else ret (Np.data flat)
     else ret (Np.data flat)) in
  write_file "plt.savefig" hist_path (FFigure values 256 0 255) >>
  print (MsgHistSaved hist_path).

(** Lines 84 to 160: everything after the output value is selected. *)
Definition handle_output (a : args) (out_key : string) (out : pyobj) : M unit :=
  let* out := check_image out in
  let* out_np := inspect out_key out in
  dump_float a out_np >>
  save_output a out >>
  save_histogram a out_np.

(** Lines 73 to 160: everything after the prediction. *)
Definition process_result (a : args) (result : dict pyobj) : M unit :=
  let* sel := select_output result in
  handle_output a (fst sel) (snd sel).

(** [main], after the command line is parsed. *)
Definition main (rt : runtime) (a : args) : M unit :=
  let* loaded := try (load_model rt a) in
  match loaded with
  | inl e => print (MsgModelLoadFailed e)
  | inr mlmodel =>
      let* inp := load_image (input a) in
      let* predicted := try (run_predict rt mlmodel inp) in
      match predicted with
      | inl e => print (MsgPredictFailed e)
      | inr result => process_result a result
      end
  end.

(** Running the script. *)
Definition run_script (rt : runtime) (a : args) (w : world) : outcome * world :=
  run (main rt a) w.

End Runner.

(** ** The readings of the specification that the code is compared with *)

Module Spec.

(** [round]: to the nearest integer, a tie to the even neighbour. *)
Definition round (x : Q) : Z :=
  let f := Qfloor x in
  match Qcompare (x - inject_Z f) (1 # 2) with
  | Lt => f
  | Gt => f + 1
  | Eq => if Z.even f then f else f + 1
  end.

(** The saved image as the specification words it:
    [round(clip(arr*255, 0, 255))] when the maximum of [arr] is at most 1,
    [round(clip(arr, 0, 255))] otherwise. *)
Definition rounded_pixels (arr : Np.ndarray) : Py.res (list Q) :=
  match Np.max arr with
  | Py.Raise e => Py.Raise e
  | Py.Ok m =>
      if Qle_bool m 1 then
        Py.Ok (map (fun v => inject_Z (round (Np.clip1 0 255 (v * 255)))) (Np.data arr))
      else
        Py.Ok (map (fun v => inject_Z (round (Np.clip1 0 255 v))) (Np.data arr))
  end.

End Spec.

(** ** Concrete runs *)

Module Examples.
Import Py Sys.

(** A toolchain that answers as the libraries do where the runs below
    depend on it: every step returns, except that a negative size of the
    example is refused, that the conversion refuses a range whose lower
    bound exceeds its upper bound, and that the weight quantization of the
    neural-network utilities refuses the ML program it is handed. *)
Definition coremltools_like : Converter.toolchain :=
  {| Converter.load_state_dict := fun _ => Ok (fun x => x);
     Converter.torch_rand := fun n =>
       if n <? 0 then Raise (RuntimeError "negative dimension")
       else Ok {| Torch.shape := [1; 3; Z.to_nat n; Z.to_nat n]%nat;
                  Torch.elems := [] |};
     Converter.jit_trace := fun f _ => Ok f;
     Converter.convert_program := fun f o =>
       if CoreML.has_empty_range o
       then Raise (LibraryError "lowerBound > upperBound for range")
       else Ok f;
     Converter.quantize_program := fun _ _ =>
       Raise (LibraryError "quantization is not supported for an ML program") |}.

(** A network that hands its input on, and a tensor with a NaN. *)
Definition passing : Torch.network := fun x => x.
Definition nan_tensor : Torch.tensor :=
  {| Torch.shape := [1; 1; 1; 1]%nat; Torch.elems := [Torch.NaN] |}.

Definition empty_world : world :=
  {| fs := {| dirs := ∅; files := ∅ |}; log := [] |}.

Definition with_file (p : path) (f : file) (w : world) : world :=
  {| fs := {| dirs := dirs (fs w); files := <[p := f]> (files (fs w)) |};
     log := log w |}.

Definition with_dir (p : path) (w : world) : world :=
  {| fs := {| dirs := {[p]} ∪ dirs (fs w); files := files (fs w) |};
     log := log w |}.

(** A checkpoint with the weights under [params]. *)
Definition good_checkpoint : Torch.checkpoint := [("params"%string, [])].

(** A checkpoint with neither of the two keys. *)
Definition bad_checkpoint : Torch.checkpoint := [("state_dict"%string, [])].

Definition convert_args (lo hi : Z) : Converter.args :=
  {| Converter.pth := ["weights.pth"%string];
     Converter.out := ["model.mlpackage"%string];
     Converter.float16 := true;
     Converter.target := Converter.mac;
     Converter.min_dim := lo;
     Converter.max_dim := hi;
     Converter.trace_size := 64 |}.

Definition a_package : CoreML.mlmodel :=
  {| CoreML.declared_inputs := [Converter.input_desc (convert_args 64 2048)];
     CoreML.declared_outputs := [Converter.output_desc];
     CoreML.deployment_target := CoreML.macOS14;
     CoreML.package_precision := CoreML.FLOAT32;
     CoreML.program := fun x => x;
     CoreML.weight_bits := None |}.

Definition picture (w h : nat) (m : PIL.mode) (px : list Q) : PIL.image :=
  {| PIL.im_mode := m; PIL.width := w; PIL.height := h; PIL.pixels := px |}.

(** A runtime that loads any package and answers every prediction with
    the same result. *)
Definition answering (result : dict Runner.pyobj) : Runner.runtime :=
  {| Runner.MLModel := fun _ _ => Ok a_package;
     Runner.predict := fun _ _ => Ok result |}.

(** A runtime that cannot load the package. *)
Definition not_loading : Runner.runtime :=
  {| Runner.MLModel := fun p _ => Raise (FileNotFoundError p);
     Runner.predict := fun _ _ => Ok [] |}.

(** A runtime whose prediction fails. *)
Definition not_predicting : Runner.runtime :=
  {| Runner.MLModel := fun _ _ => Ok a_package;
     Runner.predict := fun _ _ => Raise (LibraryError "prediction failed") |}.

Definition run_args : Runner.args :=
  {| Runner.model := ["model.mlpackage"%string];
     Runner.input := ["in.png"%string];
     Runner.output := ["out.png"%string];
     Runner.hist_dir := ["output"%string] |}.

(** A world with a 1 by 1 input image. *)
Definition world_with_input : world :=
  with_file ["in.png"%string] (FImage (picture 1 1 PIL.L [7%Q])) empty_world.

(** The same world with the directory of the histograms in place. *)
Definition world_with_hist_dir : world :=
  with_dir ["output"%string] world_with_input.

(** Two float outputs of one sample: 3/16, whose product with 255 is
    47.8125, and 200.75. Both are binary fractions, so the float
    arithmetic of the script is exact on them. *)
Definition dark_output : PIL.image := picture 1 1 PIL.F [3 # 16].
Definition bright_output : PIL.image := picture 1 1 PIL.F [803 # 4].

(** A prediction without the key [output_image]: a colour image under
    another key, and one whose only value is an array. *)
Definition renamed_result : dict Runner.pyobj :=
  [("var_1234"%string, Runner.Image (picture 1 1 PIL.RGB [10%Q; 20%Q; 30%Q]))].
Definition array_result : dict Runner.pyobj :=
  [("output_image"%string,
    Runner.Array {| Np.dtype_of := Np.float32; Np.shape := [1; 1]%nat;
                    Np.data := [1 # 2] |})].

(** A 4 by 4 colour image, the answer of a network that enlarges a 1 by 1
    input four times. *)
Definition enlarged_output : PIL.image := picture 4 4 PIL.RGB (repeat 128%Q 48).

(** A world with a checkpoint at the path of [convert_args]. *)
Definition world_with_checkpoint (c : Torch.checkpoint) : world :=
  with_file ["weights.pth"%string] (FCheckpoint c) empty_world.

End Examples.

(** ** Well-formed images, and what a run may touch *)

Module Inv.
Import Py Sys.

(** The samples of an image are as many as its bands times its pixels. *)
Definition well_formed (img : PIL.image) : Prop :=
  length (PIL.pixels img)
  = (PIL.bands (PIL.im_mode img) * (PIL.width img * PIL.height img))%nat.

(** A sample that is a whole number from 0 to 255. *)
Definition eight_bit (v : Q) : Prop :=
  exists z : Z, v = inject_Z z /\ 0 <= z <= 255.

(** The modes whose samples are 8-bit. *)
Definition eight_bit_mode (m : PIL.mode) : bool :=
  match m with
  | PIL.L | PIL.LA | PIL.RGB | PIL.RGBA => true
  | PIL.I | PIL.F => false
  end.

(** From [w] to [w']: no file outside [ps] has changed, no file is gone,
    no directory is gone. *)
Definition stable (ps : list path) (w w' : world) : Prop :=
  (forall p, p ∉ ps -> files (fs w') !! p = files (fs w) !! p)
  /\ (forall p, is_Some (files (fs w) !! p) -> is_Some (files (fs w') !! p))
  /\ dirs (fs w) ⊆ dirs (fs w').

(** A statement that, however it ends, touches no file outside [ps]. *)
Definition confined {A} (ps : list path) (m : M A) : Prop :=
  forall w r w', m w = (r, w') -> stable ps w w'.

(** [a <= b] on elements of a tensor, neither of them a NaN. *)
Definition le (a b : Torch.f32) : Prop :=
  a <> Torch.NaN /\ b <> Torch.NaN /\ Torch.lt b a = false.

(** The histogram the runner writes last. *)
Definition hist_path (a : Runner.args) : path :=
  join (Runner.hist_dir a) "hist_output.png".

(** The paths the runner writes to. *)
Definition runner_paths (a : Runner.args) : list path :=
  [ Runner.output a;
    join (Runner.hist_dir a) "output_float.npy";
    join (Runner.hist_dir a) "hist_output_float.png";
    join (Runner.hist_dir a) "hist_output.png" ].

End Inv.

(** ** More concrete runs *)

Module Cases.
Import Py Sys.

(** A checkpoint with both keys, of different weights. *)
Definition ema_weights : Torch.state_dict :=
  [("conv_first.weight"%string,
    {| Torch.shape := [1]%nat; Torch.elems := [Torch.Fin 1] |})].
Definition raw_weights : Torch.state_dict :=
  [("conv_first.weight"%string,
    {| Torch.shape := [1]%nat; Torch.elems := [Torch.Fin 2] |})].
Definition both_checkpoint : Torch.checkpoint :=
  [("params"%string, raw_weights); ("params_ema"%string, ema_weights)].
Definition raw_checkpoint : Torch.checkpoint := [("params"%string, raw_weights)].

(** A toolchain whose network does not take the weights. *)
Definition mismatching : Converter.toolchain :=
  {| Converter.load_state_dict := fun _ =>
       Raise (RuntimeError "Error(s) in loading state_dict for RRDBNet");
     Converter.torch_rand := Converter.torch_rand Examples.coremltools_like;
     Converter.jit_trace := Converter.jit_trace Examples.coremltools_like;
     Converter.convert_program := Converter.convert_program Examples.coremltools_like;
     Converter.quantize_program := Converter.quantize_program Examples.coremltools_like |}.

(** The command line of [Examples.convert_args] without [--float16]. *)
Definition convert_args32 (lo hi : Z) : Converter.args :=
  {| Converter.pth := ["weights.pth"%string];
     Converter.out := ["model.mlpackage"%string];
     Converter.float16 := false;
     Converter.target := Converter.mac;
     Converter.min_dim := lo;
     Converter.max_dim := hi;
     Converter.trace_size := 64 |}.

(** A 2 by 1 colour image of 8-bit samples, and a 2 by 1 grey image. *)
Definition colour_image : PIL.image :=
  Examples.picture 2 1 PIL.RGB [10%Q; 20%Q; 30%Q; 40%Q; 50%Q; 60%Q].
Definition grey_image : PIL.image := Examples.picture 2 1 PIL.L [7%Q; 9%Q].

(** A 2 by 1 grey image whose samples are 0 and 1. *)
Definition mask_image : PIL.image := Examples.picture 2 1 PIL.L [0%Q; 1%Q].

(** An image without pixels. *)
Definition empty_image : PIL.image := Examples.picture 0 0 PIL.RGB [].

(** The output path inside the directory of the histograms. *)
Definition nested_args : Runner.args :=
  {| Runner.model := ["model.mlpackage"%string];
     Runner.input := ["in.png"%string];
     Runner.output := ["output"%string; "out.png"%string];
     Runner.hist_dir := ["output"%string] |}.

End Cases.

(** * Properties *)

(** [H] is an equation between two results: take it apart. *)
Ltac invert_eq H := inversion H; subst; clear H.


(** ** The converter never starts *)

Section ConverterScript.
Import Py Sys.

(** The grammar accepts a parenthesised list of names with a trailing
    comma, and refuses the list of the file, whose only element is the
    operator [/]. *)
Lemma import_from_parenthesised_ok :
  Converter.parse_import
    [Converter.KEYWORD Converter.KW_from; Converter.NAME "m";
     Converter.KEYWORD Converter.KW_import; Converter.OP Converter.LPar;
     Converter.NAME "x"; Converter.OP Converter.Comma; Converter.OP Converter.RPar;
     Converter.NEWLINE]
  = Some (Converter.ImportFrom ["m"%string]
            [{| Converter.imported := ["x"%string]; Converter.asname := None |}]).
Proof. reflexivity. Qed.

Lemma import_from_as_names_needs_name ts :
  Converter.import_from_as_names (Converter.OP Converter.Slash :: ts) = None.
Proof. reflexivity. Qed.

(** Without the statement of line 26 the file compiles. *)
Lemma other_statements_compile :
  exists imports,
    Converter.compile
      (List.filter (fun s => match s with
                             | Converter.ImportLine 26 _ => false
                             | _ => true
                             end) Converter.module_source) = Ok imports.
Proof. eexists. vm_compute. reflexivity. Qed.

Lemma module_does_not_compile :
  Converter.compile Converter.module_source = Raise (SyntaxError 26).
Proof. reflexivity. Qed.

(** C1. Every invocation of the converter ends with a syntax error of the
    import statement at line 26, whatever the collaborators, the command
    line and the file system are: the outcome is the uncaught error (exit
    status 1, never the success path), and the world is the one the script
    was started in, so no checkpoint was loaded and no file was written. *)
Theorem converter_script_never_runs
    (tc : Converter.toolchain) (a : Converter.args) (w : world) :
  Converter.run_script tc a w = (Uncaught (SyntaxError 26), w)
  /\ exit_status (fst (Converter.run_script tc a w)) = 1
  /\ fst (Converter.run_script tc a w) <> Returned.
Proof.
  unfold Converter.run_script. rewrite module_does_not_compile.
  repeat split. discriminate.
Qed.

End ConverterScript.

(** ** The output transform of the wrapped model *)

Section Clamp.
Import Torch.

Lemma clamp1_unit_cases (y : f32) :
  match y with
  | NaN => clamp1 (Fin 0) (Fin 1) y = NaN
  | _ => exists q, clamp1 (Fin 0) (Fin 1) y = Fin q /\ (0 <= q /\ q <= 1)%Q
  end.
Proof.
  destruct y as [| | |q]; unfold clamp1; simpl.
  - reflexivity.
  - exists 0%Q. repeat split; discriminate.
  - exists 1%Q. repeat split; discriminate.
  - destruct (Qle_bool 0 q) eqn:H0; simpl.
    + destruct (Qle_bool q 1) eqn:H1; simpl.
      * exists q. apply Qle_bool_iff in H0, H1. auto.
      * exists 1%Q. repeat split; discriminate.
    + exists 0%Q. repeat split; discriminate.
Qed.

Lemma scale_unit_interval (q : Q) :
  (0 <= q /\ q <= 1)%Q -> (0 <= q * 255 /\ q * 255 <= 255)%Q.
Proof.
  intros [H0 H1]. split; lra.
Qed.

Lemma transform_element (y : f32) :
  transformed y (mul (clamp1 (Fin 0) (Fin 1) y) (Fin 255)).
Proof.
  pose proof (clamp1_unit_cases y) as H.
  destruct y; unfold transformed.
  - rewrite H. reflexivity.
  - destruct H as [q [-> Hq]]. simpl. apply scale_unit_interval, Hq.
  - destruct H as [q [-> Hq]]. simpl. apply scale_unit_interval, Hq.
  - destruct H as [q' [-> Hq]]. simpl. apply scale_unit_interval, Hq.
Qed.

(** What the docstring of [forward] promises does hold wherever the base
    model gives a number or an infinity. For every base model and every
    input tensor, the output of the wrapped model has the shape of the base
    model's output, and element by element: where the base model gives any
    value but a NaN, the output lies in [0, 255]; where it gives a NaN, the
    output is NaN. The bound does not depend on the product being exact:
    0, 1 and 255 are float values and rounding to nearest keeps the order. *)
Theorem clamped_forward_range (base : network) (x : tensor) :
  shape (Converter.forward {| Converter.base_model := base |} x) = shape (base x)
  /\ Forall2 transformed
       (elems (base x))
       (elems (Converter.forward {| Converter.base_model := base |} x)).
Proof.
  unfold Converter.forward; simpl. split; [reflexivity|].
  induction (elems (base x)) as [|y ys IH]; simpl.
  - constructor.
  - constructor; [apply transform_element | exact IH].
Qed.

(** C2. The code does not keep the guarantee of its own docstring (lines
    51 to 54: the clamp limits every element to [0, 1], so that the output
    is a valid image value after the product): a NaN of the base model is
    neither below 0 nor above 1, the clamp keeps it, the product with 255 is
    NaN again, and the output element is not in [0, 255]. *)
Lemma clamped_forward_nan_escapes :
  elems (Converter.forward {| Converter.base_model := Examples.passing |} Examples.nan_tensor) = [NaN]
  /\ ~ Forall (in_range 0 255)
        (elems (Converter.forward {| Converter.base_model := Examples.passing |} Examples.nan_tensor)).
Proof.
  split; [reflexivity|].
  intros H. inversion H as [|r rs Hr _]; subst. exact Hr.
Qed.

End Clamp.

(** ** The 8-bit conversion of the runner *)

Section Pixels.
Import Py Sys.

Lemma clip1_bounds (x : Q) : (0 <= Np.clip1 0 255 x /\ Np.clip1 0 255 x <= 255)%Q.
Proof.
  unfold Np.clip1, Np.Qminimum, Np.Qmaximum.
  destruct (Qle_bool x 0) eqn:Hx.
  - simpl. split; discriminate.
  - destruct (Qle_bool x 255) eqn:Hy.
    + apply Qle_bool_iff in Hy. split; [|exact Hy].
      destruct (Qlt_le_dec x 0) as [Hl|Hl]; [|exact Hl].
      apply Qlt_le_weak, Qle_bool_iff in Hl. congruence.
    + split; discriminate.
Qed.

Lemma to_uint8_floor (v : Q) :
  (0 <= v /\ v <= 255)%Q -> Np.to_uint8 v = Qfloor v /\ 0 <= Qfloor v <= 255.
Proof.
  intros [H0 H1].
  assert (Hf : 0 <= Qfloor v <= 255).
  { split.
    - change 0 with (Qfloor 0). apply Qfloor_resp_le, H0.
    - change 255 with (Qfloor 255). apply Qfloor_resp_le, H1. }
  split; [|exact Hf].
  unfold Np.to_uint8. destruct v as [n d]. simpl in *.
  unfold Qle in H0. simpl in H0.
  rewrite Z.quot_div_nonneg by lia.
  apply Z.mod_small. lia.
Qed.

Lemma to_uint8_truncates (v : Q) :
  (0 <= v /\ v <= 255)%Q -> Np.truncates v (inject_Z (Np.to_uint8 v)).
Proof.
  intros Hv. destruct (to_uint8_floor v Hv) as [-> Hf].
  exists (Qfloor v). repeat split; try lia.
  - apply Qfloor_le.
  - replace (inject_Z (Qfloor v) + 1)%Q with (inject_Z (Qfloor v + 1)).
    + apply Qlt_floor.
    + rewrite inject_Z_plus. reflexivity.
Qed.

(** On a whole number the truncation and the rounding of the specification
    agree. *)
Lemma round_of_integer (z : Z) : Spec.round (inject_Z z) = z.
Proof.
  unfold Spec.round. rewrite Qfloor_Z.
  replace (Qcompare (inject_Z z - inject_Z z) (1 # 2)) with Lt; [reflexivity|].
  symmetry. apply (proj1 (Qlt_alt _ _)). lra.
Qed.

Lemma to_uint8_of_integer (z : Z) :
  0 <= z <= 255 -> Np.to_uint8 (inject_Z z) = Spec.round (inject_Z z).
Proof.
  intros Hz. rewrite round_of_integer.
  unfold Np.to_uint8. simpl. rewrite Z.quot_1_r. apply Z.mod_small. lia.
Qed.

(** The conversion, element by element. *)
Lemma to_uint8_image_spec (arr r : Np.ndarray) :
  Runner.to_uint8_image arr = Ok r ->
  exists m, Np.max arr = Ok m
    /\ Np.dtype_of r = Np.uint8
    /\ Np.shape r = Np.shape arr
    /\ Np.data r =
         map (fun v => inject_Z (Np.to_uint8
                (Np.clip1 0 255 (if Qle_bool m 1 then v * 255 else v)%Q)))
             (Np.data arr).
Proof.
  unfold Runner.to_uint8_image. destruct (Np.max arr) as [m|e]; [|discriminate].
  intros H. exists m. split; [reflexivity|].
  destruct (Qle_bool m 1); inversion H; subst; simpl;
    rewrite ?List.map_map; auto.
Qed.

Lemma fromarray_of_image (out : PIL.image) (r : Np.ndarray) :
  Np.dtype_of r = Np.uint8 ->
  Np.shape r = Np.shape (PIL.np_array out) ->
  exists pic, PIL.fromarray r = Ok pic
    /\ PIL.width pic = PIL.width out
    /\ PIL.height pic = PIL.height out
    /\ PIL.pixels pic = Np.data r.
Proof.
  intros Hd Hs. unfold PIL.fromarray. rewrite Hd, Hs.
  unfold PIL.np_array; simpl.
  destruct (PIL.im_mode out); simpl; eexists; repeat split.
Qed.

Lemma open_write_ok (p : path) (c : file) (w w' : world) :
  open_write p c w = (Ok tt, w') ->
  files (fs w') = <[p := c]> (files (fs w))
  /\ dirs (fs w') = dirs (fs w)
  /\ log w' = log w ++ [Write p].
Proof.
  unfold open_write.
  destruct (bool_decide (p = []) || negb (is_dir (fs w) (dirname p)));
    intros H; inversion H; subst; simpl; auto.
Qed.

Lemma write_file_ok (f : string) (p : path) (c : file) (w w' : world) :
  write_file f p c w = (Ok tt, w') ->
  files (fs w') = <[p := c]> (files (fs w))
  /\ dirs (fs w') = dirs (fs w)
  /\ log w' = log w ++ [Call f; Write p].
Proof.
  unfold write_file, bind, emit. intros H.
  apply open_write_ok in H. simpl in H. destruct H as (Hf & Hd & Hl).
  rewrite Hf, Hd, Hl, <- app_assoc. auto.
Qed.

(** What [save_output] leaves behind when it returns. *)
Lemma save_output_ok (a : Runner.args) (out : PIL.image) (w w' : world) :
  Runner.save_output a out w = (Ok tt, w') ->
  exists img pic,
    Runner.to_uint8_image (PIL.np_array out) = Ok img
    /\ PIL.fromarray img = Ok pic
    /\ files (fs w') = <[Runner.output a := FImage pic]> (files (fs w))
    /\ dirs (fs w') = dirs (fs w)
    /\ log w' = log w ++ [Call "Image.save"; Write (Runner.output a);
                          Stdout (MsgSaved (Runner.output a))].
Proof.
  unfold Runner.save_output, bind, lift, Runner.Image_save.
  destruct (Runner.to_uint8_image (PIL.np_array out)) as [img|e] eqn:Himg;
    [|discriminate].
  destruct (PIL.fromarray img) as [pic|e] eqn:Hpic; [|discriminate].
  destruct (write_file "Image.save" (Runner.output a) (FImage pic) w)
    as [[[]|e] w1] eqn:Hw; [|discriminate].
  apply write_file_ok in Hw. destruct Hw as (Hf & Hd & Hl).
  unfold print, emit. intros H. inversion H; subst; simpl.
  exists img, pic. rewrite Hl, <- app_assoc. repeat split; assumption || reflexivity.
Qed.

(** C3, as the code has it, for an output whose samples are all finite
    (the arrays of this development hold no NaN and no infinity). When the
    output image is saved, the file at the output path is the image whose
    every sample is the clipped value without its fraction: the value is
    first multiplied by 255 when the maximum of the array is at most 1, it
    is clipped to [0, 255], and the 8-bit sample [p] is the whole number
    with [p <= value < p + 1]. The conversion discards the fraction, it does
    not round. *)
Theorem saved_image_truncates
    (a : Runner.args) (out : PIL.image) (w w' : world) :
  Runner.save_output a out w = (Ok tt, w') ->
  exists m pic,
    Np.max (PIL.np_array out) = Ok m
    /\ files (fs w') !! Runner.output a = Some (FImage pic)
    /\ Forall2
         (fun v p =>
            Np.truncates (Np.clip1 0 255 (if Qle_bool m 1 then v * 255 else v)%Q) p)
         (PIL.pixels out) (PIL.pixels pic).
Proof.
  intros H. apply save_output_ok in H.
  destruct H as (img & pic & Himg & Hpic & Hf & _ & _).
  apply to_uint8_image_spec in Himg. destruct Himg as (m & Hm & Hd & Hs & Hdata).
  destruct (fromarray_of_image out img Hd Hs) as (pic' & Hpic' & _ & _ & Hpx).
  rewrite Hpic in Hpic'. inversion Hpic'; subst pic'.
  exists m, pic. split; [exact Hm|]. split.
  - rewrite Hf. apply lookup_insert_eq.
  - rewrite Hpx, Hdata. simpl.
    induction (PIL.pixels out) as [|v vs IH]; simpl; constructor; [|exact IH].
    apply to_uint8_truncates, clip1_bounds.
Qed.

Lemma saved_image_truncates_witness :
  exists m pic,
    Np.max (PIL.np_array Examples.dark_output) = Ok m
    /\ files (fs (snd (Runner.save_output Examples.run_args Examples.dark_output
                         Examples.world_with_hist_dir)))
         !! Runner.output Examples.run_args = Some (FImage pic)
    /\ Forall2
         (fun v p =>
            Np.truncates (Np.clip1 0 255 (if Qle_bool m 1 then v * 255 else v)%Q) p)
         (PIL.pixels Examples.dark_output) (PIL.pixels pic).
Proof.
  apply (saved_image_truncates Examples.run_args Examples.dark_output
           Examples.world_with_hist_dir).
  reflexivity.
Defined.

(** C3 fails as stated. The runner, given a float output of the one sample
    3/16 (maximum at most 1), saves the sample 47, where the rounding of
    the specification gives 48; given the one sample 200.75 it saves 200,
    where the rounding gives 201. *)
Lemma saved_image_is_not_rounded :
  (fst (Runner.run_script
          (Examples.answering [("output_image"%string, Runner.Image Examples.dark_output)])
          Examples.run_args Examples.world_with_hist_dir) = Returned
   /\ files (fs (snd (Runner.run_script
          (Examples.answering [("output_image"%string, Runner.Image Examples.dark_output)])
          Examples.run_args Examples.world_with_hist_dir)))
        !! Runner.output Examples.run_args
      = Some (FImage (Examples.picture 1 1 PIL.L [47%Q]))
   /\ Spec.rounded_pixels (PIL.np_array Examples.dark_output) = Ok [48%Q])
  /\
  (fst (Runner.run_script
          (Examples.answering [("output_image"%string, Runner.Image Examples.bright_output)])
          Examples.run_args Examples.world_with_hist_dir) = Returned
   /\ files (fs (snd (Runner.run_script
          (Examples.answering [("output_image"%string, Runner.Image Examples.bright_output)])
          Examples.run_args Examples.world_with_hist_dir)))
        !! Runner.output Examples.run_args
      = Some (FImage (Examples.picture 1 1 PIL.L [200%Q]))
   /\ Spec.rounded_pixels (PIL.np_array Examples.bright_output) = Ok [201%Q]).
Proof. repeat split; vm_compute; reflexivity. Qed.

End Pixels.

(** ** The converter and its checkpoint *)

Section Checkpoint.
Import Py Sys.

Lemma load_first_key_missing (tc : Converter.toolchain) (ckpt : Torch.checkpoint)
    (w : world) :
  contains "params_ema" ckpt = false ->
  contains "params" ckpt = false ->
  Converter.load_first_key tc ["params_ema"%string; "params"%string] ckpt w
  = (Raise (RuntimeError "params_ema または params キーが見つかりません"), w).
Proof. intros H1 H2. simpl. rewrite H1, H2. reflexivity. Qed.

(** C4. When the checkpoint at the given path holds neither [params_ema]
    nor [params], [main] ends the process with status 1; the file system is
    the one it started in, and the only things that happened are the
    construction of the network, the load of the checkpoint and the two
    reports of the error: no trace, no conversion, no quantization and no
    save was entered. The script as a
    whole ends with a nonzero status and an untouched file system too. *)
Theorem missing_keys_fatal
    (tc : Converter.toolchain) (a : Converter.args) (w : world)
    (ckpt : Torch.checkpoint) :
  files (fs w) !! Converter.pth a = Some (FCheckpoint ckpt) ->
  contains "params_ema" ckpt = false ->
  contains "params" ckpt = false ->
  Converter.main tc a w =
    (Exited 1,
     {| fs := fs w;
        log := log w ++
          [Call "RRDBNet"; Call "torch.load";
           Stderr (MsgConvertError (RuntimeError "params_ema または params キーが見つかりません"));
           Stderr (MsgTraceback (RuntimeError "params_ema または params キーが見つかりません"))] |})
  /\ exit_status (fst (Converter.main tc a w)) <> 0
  /\ exit_status (fst (Converter.run_script tc a w)) <> 0
  /\ fs (snd (Converter.run_script tc a w)) = fs w.
Proof.
  intros Hf H1 H2.
  assert (Hmain : Converter.main tc a w =
    (Exited 1,
     {| fs := fs w;
        log := log w ++
          [Call "RRDBNet"; Call "torch.load";
           Stderr (MsgConvertError (RuntimeError "params_ema または params キーが見つかりません"));
           Stderr (MsgTraceback (RuntimeError "params_ema または params キーが見つかりません"))] |})).
  { unfold Converter.main, Converter.convert_and_save, Converter.load_rrdbnet,
      Converter.torch_load, read_file, open_read, bind, emit. simpl.
    rewrite Hf. unfold ret.
    rewrite (load_first_key_missing tc ckpt _ H1 H2). simpl.
    rewrite <- !app_assoc. reflexivity. }
  unfold Converter.run_script. rewrite module_does_not_compile, Hmain. simpl.
  repeat split; discriminate.
Qed.

Lemma missing_keys_fatal_witness :
  exit_status
    (fst (Converter.main Examples.coremltools_like (Examples.convert_args 64 2048)
            (Examples.world_with_checkpoint Examples.bad_checkpoint))) <> 0.
Proof.
  exact (proj1 (proj2
    (missing_keys_fatal Examples.coremltools_like (Examples.convert_args 64 2048)
       (Examples.world_with_checkpoint Examples.bad_checkpoint)
       Examples.bad_checkpoint eq_refl eq_refl eq_refl))).
Defined.

End Checkpoint.

(** ** The runner: failures, the output key, the output type *)

Section RunnerControl.
Import Py Sys.

Lemma logged_logged (w : world) (es es' : list event) :
  logged (logged w es) es' = logged w (es ++ es').
Proof. unfold logged; simpl. rewrite <- app_assoc. reflexivity. Qed.

Lemma main_load_failed (rt : Runner.runtime) (a : Runner.args) (w : world) (e : exn) :
  Runner.MLModel rt (Runner.model a) (fs w) = Raise e ->
  Runner.main rt a w
  = (Ok tt, logged w [Call "MLModel"; Stdout (MsgModelLoadFailed e)]).
Proof.
  intros H. unfold Runner.main, bind, try, Runner.load_model, call. rewrite H.
  unfold print, emit, logged; simpl. rewrite <- app_assoc. reflexivity.
Qed.

Lemma load_image_ok (p : path) (im : PIL.image) (w : world) :
  files (fs w) !! p = Some (FImage im) ->
  Runner.load_image p w = (Ok (PIL.convert_RGB im), logged w [Call "Image.open"]).
Proof.
  intros H. unfold Runner.load_image, Runner.Image_open, read_file, open_read,
    bind, emit. simpl. rewrite H. reflexivity.
Qed.

Lemma load_image_failed (p : path) (w : world) :
  (forall im, files (fs w) !! p <> Some (FImage im)) ->
  exists e, Runner.load_image p w = (Raise e, logged w [Call "Image.open"]).
Proof.
  intros H. unfold Runner.load_image, Runner.Image_open, read_file, open_read,
    bind, emit. simpl.
  destruct (files (fs w) !! p) as [[im| | | |]|] eqn:Hp;
    try (eexists; reflexivity).
  exfalso. apply (H im). reflexivity.
Qed.

Lemma main_image_failed (rt : Runner.runtime) (a : Runner.args) (w : world)
    (m : CoreML.mlmodel) :
  Runner.MLModel rt (Runner.model a) (fs w) = Ok m ->
  (forall im, files (fs w) !! Runner.input a <> Some (FImage im)) ->
  exists e, Runner.main rt a w
            = (Raise e, logged w [Call "MLModel"; Call "Image.open"]).
Proof.
  intros Hm Hi. unfold Runner.main, bind, try, Runner.load_model, call. rewrite Hm.
  destruct (load_image_failed (Runner.input a) (logged w [Call "MLModel"]) Hi)
    as [e He].
  exists e. fold (logged w [Call "MLModel"]). rewrite He, logged_logged. reflexivity.
Qed.

Lemma main_predict_failed (rt : Runner.runtime) (a : Runner.args) (w : world)
    (m : CoreML.mlmodel) (im : PIL.image) (e : exn) :
  Runner.MLModel rt (Runner.model a) (fs w) = Ok m ->
  files (fs w) !! Runner.input a = Some (FImage im) ->
  Runner.predict rt m [("input_image"%string, PIL.convert_RGB im)] = Raise e ->
  Runner.main rt a w
  = (Ok tt, logged w [Call "MLModel"; Call "Image.open"; Call "predict";
                      Stdout (MsgPredictFailed e)]).
Proof.
  intros Hm Hi Hp. unfold Runner.main, bind, try, Runner.load_model, call. rewrite Hm.
  fold (logged w [Call "MLModel"]).
  rewrite (load_image_ok _ im) by exact Hi.
  unfold Runner.run_predict, bind, call. rewrite Hp.
  unfold print, emit, logged; simpl. rewrite <- !app_assoc. reflexivity.
Qed.

(** After a prediction that returns, [main] goes on with its result. *)
Lemma main_predicted (rt : Runner.runtime) (a : Runner.args) (w : world)
    (m : CoreML.mlmodel) (im : PIL.image) (result : dict Runner.pyobj) :
  Runner.MLModel rt (Runner.model a) (fs w) = Ok m ->
  files (fs w) !! Runner.input a = Some (FImage im) ->
  Runner.predict rt m [("input_image"%string, PIL.convert_RGB im)] = Ok result ->
  Runner.main rt a w
  = Runner.process_result a result
      (logged w [Call "MLModel"; Call "Image.open"; Call "predict";
                 Stdout MsgInferenceTime]).
Proof.
  intros Hm Hi Hp. unfold Runner.main, bind, try, Runner.load_model, call. rewrite Hm.
  fold (logged w [Call "MLModel"]).
  rewrite (load_image_ok _ im) by exact Hi.
  unfold Runner.run_predict, bind, call. rewrite Hp.
  unfold print, emit, ret, logged; simpl. rewrite <- !app_assoc. reflexivity.
Qed.

(** C5, as the code has it. A failure to load the model package and a
    failure of the prediction are each caught: the run prints the message
    of the failure and returns (exit status 0), and nothing is written. A
    failure to open or decode the input image is not caught: the exception
    leaves [main] and ends the process. *)
Theorem runner_failure_handling (rt : Runner.runtime) (a : Runner.args) (w : world) :
  (forall e,
      Runner.MLModel rt (Runner.model a) (fs w) = Raise e ->
      Runner.run_script rt a w
      = (Returned, logged w [Call "MLModel"; Stdout (MsgModelLoadFailed e)]))
  /\ (forall m im e,
        Runner.MLModel rt (Runner.model a) (fs w) = Ok m ->
        files (fs w) !! Runner.input a = Some (FImage im) ->
        Runner.predict rt m [("input_image"%string, PIL.convert_RGB im)] = Raise e ->
        Runner.run_script rt a w
        = (Returned, logged w [Call "MLModel"; Call "Image.open"; Call "predict";
                               Stdout (MsgPredictFailed e)]))
  /\ (forall m,
        Runner.MLModel rt (Runner.model a) (fs w) = Ok m ->
        (forall im, files (fs w) !! Runner.input a <> Some (FImage im)) ->
        exists e,
          Runner.run_script rt a w
          = (Uncaught e, logged w [Call "MLModel"; Call "Image.open"])).
Proof.
  unfold Runner.run_script, run. repeat split.
  - intros e H. rewrite (main_load_failed rt a w e H). reflexivity.
  - intros m im e Hm Hi Hp. rewrite (main_predict_failed rt a w m im e Hm Hi Hp).
    reflexivity.
  - intros m Hm Hi. destruct (main_image_failed rt a w m Hm Hi) as [e He].
    exists e. rewrite He. reflexivity.
Qed.

Lemma runner_failure_handling_witness :
  Runner.run_script Examples.not_loading Examples.run_args Examples.world_with_input
  = (Returned,
     logged Examples.world_with_input
       [Call "MLModel";
        Stdout (MsgModelLoadFailed (FileNotFoundError (Runner.model Examples.run_args)))])
  /\ Runner.run_script Examples.not_predicting Examples.run_args
       Examples.world_with_input
     = (Returned,
        logged Examples.world_with_input
          [Call "MLModel"; Call "Image.open"; Call "predict";
           Stdout (MsgPredictFailed (LibraryError "prediction failed"))])
  /\ exists e,
       Runner.run_script (Examples.answering []) Examples.run_args Examples.empty_world
       = (Uncaught e, logged Examples.empty_world [Call "MLModel"; Call "Image.open"]).
Proof.
  split; [|split].
  - apply (proj1 (runner_failure_handling Examples.not_loading Examples.run_args
                    Examples.world_with_input)).
    reflexivity.
  - apply (proj1 (proj2 (runner_failure_handling Examples.not_predicting
                           Examples.run_args Examples.world_with_input))
             Examples.a_package (Examples.picture 1 1 PIL.L [7%Q])); reflexivity.
  - apply (proj2 (proj2 (runner_failure_handling (Examples.answering [])
                           Examples.run_args Examples.empty_world))
             Examples.a_package); [reflexivity|].
    intros im. vm_compute. discriminate.
Defined.

(** C5 fails as stated: with a model that loads and no file at the input
    path, the run ends with the uncaught exception of the image load, exit
    status 1, and not with a message and a return. *)
Lemma unreadable_image_crashes :
  Runner.run_script (Examples.answering []) Examples.run_args Examples.empty_world
  = (Uncaught (FileNotFoundError (Runner.input Examples.run_args)),
     logged Examples.empty_world [Call "MLModel"; Call "Image.open"])
  /\ fst (Runner.run_script (Examples.answering []) Examples.run_args
            Examples.empty_world) <> Returned.
Proof. split; [vm_compute; reflexivity | vm_compute; discriminate]. Qed.

Lemma getitem_first {A} (k : string) (v : A) (rest : dict A) :
  getitem ((k, v) :: rest) k = Ok v.
Proof. unfold getitem. simpl. rewrite String.eqb_refl. reflexivity. Qed.

(** C6. When the prediction result has no key [output_image] and is not
    empty, the selection returns the first key of the result with its
    value, prints the line that names the key, and the run goes on with
    that value: nothing is raised by the selection. *)
Theorem fallback_selects_first_key
    (a : Runner.args) (result : dict Runner.pyobj) (w : world) :
  contains "output_image" result = false ->
  result <> [] ->
  exists k v rest,
    result = (k, v) :: rest
    /\ Runner.select_output result w
       = (Ok (k, v), logged w [Stdout (MsgOutputKeyFound k)])
    /\ Runner.process_result a result w
       = Runner.handle_output a k v (logged w [Stdout (MsgOutputKeyFound k)]).
Proof.
  intros Hno Hne. destruct result as [|[k v] rest]; [congruence|].
  exists k, v, rest. split; [reflexivity|].
  assert (Hsel : Runner.select_output ((k, v) :: rest) w
                 = (Ok (k, v), logged w [Stdout (MsgOutputKeyFound k)])).
  { unfold Runner.select_output. rewrite Hno.
    unfold bind, lift, print, emit, ret. simpl first_key. cbv iota beta.
    rewrite getitem_first. reflexivity. }
  split; [exact Hsel|].
  unfold Runner.process_result, bind. rewrite Hsel. reflexivity.
Qed.

Lemma fallback_selects_first_key_witness :
  exists k v rest,
    Examples.renamed_result = (k, v) :: rest
    /\ Runner.select_output Examples.renamed_result Examples.world_with_input
       = (Ok (k, v), logged Examples.world_with_input [Stdout (MsgOutputKeyFound k)])
    /\ Runner.process_result Examples.run_args Examples.renamed_result
         Examples.world_with_input
       = Runner.handle_output Examples.run_args k v
           (logged Examples.world_with_input [Stdout (MsgOutputKeyFound k)]).
Proof.
  apply (fallback_selects_first_key Examples.run_args Examples.renamed_result
           Examples.world_with_input).
  - reflexivity.
  - discriminate.
Defined.

Lemma select_output_fs (result : dict Runner.pyobj) (w w' : world)
    (r : res (string * Runner.pyobj)) :
  Runner.select_output result w = (r, w') -> fs w' = fs w.
Proof.
  unfold Runner.select_output, bind, lift, ret, print, emit.
  destruct (contains "output_image" result).
  - destruct (getitem result "output_image"); intros H; inversion H; reflexivity.
  - destruct (first_key result) as [k|e]; [|intros H; inversion H; reflexivity].
    simpl. destruct (getitem result k); intros H; inversion H; reflexivity.
Qed.

(** C10. When the model loads, the input image opens, the prediction
    returns and the selected output value is not an image, the run ends
    with the uncaught [TypeError] of line 85: the process ends with status
    1 instead of returning, and no file was written. *)
Theorem non_image_output_is_fatal
    (rt : Runner.runtime) (a : Runner.args) (w w1 : world)
    (m : CoreML.mlmodel) (im : PIL.image) (result : dict Runner.pyobj)
    (k : string) (v : Runner.pyobj) :
  Runner.MLModel rt (Runner.model a) (fs w) = Ok m ->
  files (fs w) !! Runner.input a = Some (FImage im) ->
  Runner.predict rt m [("input_image"%string, PIL.convert_RGB im)] = Ok result ->
  Runner.select_output result
    (logged w [Call "MLModel"; Call "Image.open"; Call "predict";
               Stdout MsgInferenceTime]) = (Ok (k, v), w1) ->
  (forall img, v <> Runner.Image img) ->
  Runner.run_script rt a w
  = (Uncaught (TypeError "the model output is not an Image"), w1)
  /\ exit_status (fst (Runner.run_script rt a w)) = 1
  /\ fs w1 = fs w.
Proof.
  intros Hm Hi Hp Hsel Hv.
  assert (Hrun : Runner.run_script rt a w
                 = (Uncaught (TypeError "the model output is not an Image"), w1)).
  { unfold Runner.run_script, run.
    rewrite (main_predicted rt a w m im result Hm Hi Hp).
    unfold Runner.process_result, bind. rewrite Hsel. simpl.
    unfold Runner.handle_output, bind, Runner.check_image.
    destruct v as [img| |]; [destruct (Hv img eq_refl)| |]; reflexivity. }
  rewrite Hrun. repeat split.
  apply select_output_fs in Hsel. exact Hsel.
Qed.

Lemma non_image_output_is_fatal_witness :
  exit_status
    (fst (Runner.run_script (Examples.answering Examples.array_result)
            Examples.run_args Examples.world_with_input)) = 1.
Proof.
  refine (proj1 (proj2
    (non_image_output_is_fatal (Examples.answering Examples.array_result)
       Examples.run_args Examples.world_with_input _
       Examples.a_package (Examples.picture 1 1 PIL.L [7%Q]) Examples.array_result
       "output_image"
       (Runner.Array {| Np.dtype_of := Np.float32; Np.shape := [1; 1]%nat;
                        Np.data := [1 # 2] |})
       eq_refl eq_refl eq_refl eq_refl _))).
  intros img. discriminate.
Defined.

End RunnerControl.

(** ** The declared input of the exported package *)

Section DeclaredInput.
Import Py Sys.



Lemma open_write_failed (p : path) (c : file) (w w' : world) (e : exn) :
  open_write p c w = (Raise e, w') -> w' = w.
Proof.
  unfold open_write.
  destruct (bool_decide (p = []) || negb (is_dir (fs w) (dirname p)));
    intros H; inversion H; reflexivity.
Qed.






End DeclaredInput.

(** ** The directory of the histograms *)

Section HistogramDirectory.
Import Py Sys.

(** A write into a directory that is not there. *)
Lemma write_file_without_directory (f name : string) (d : path) (c : file) (w : world) :
  is_dir (fs w) d = false ->
  write_file f (join d name) c w
  = (Raise (FileNotFoundError (join d name)), logged w [Call f]).
Proof.
  intros Hdir. unfold write_file, bind, emit, open_write, join, dirname. cbn [fs log].
  rewrite removelast_last, Hdir, orb_true_r. reflexivity.
Qed.

(** Whatever the run was before: with an array of floating-point elements
    and no directory for the histograms, the dump of lines 113 to 127 raises
    at its first write. *)
Lemma float_dump_without_directory (a : Runner.args) (out_np : Np.ndarray) (w : world) :
  Np.is_floating (Np.dtype_of out_np) = true ->
  is_dir (fs w) (Runner.hist_dir a) = false ->
  Runner.dump_float a out_np w
  = (Raise (FileNotFoundError (join (Runner.hist_dir a) "output_float.npy")),
     logged w [Call "np.save"]).
Proof.
  intros Hfl Hdir. unfold Runner.dump_float. rewrite Hfl.
  unfold bind. rewrite write_file_without_directory by exact Hdir. reflexivity.
Qed.

(** With an array of integer elements the dump does nothing. *)
Lemma integer_dump_is_skipped (a : Runner.args) (out_np : Np.ndarray) (w : world) :
  Np.is_floating (Np.dtype_of out_np) = false ->
  Runner.dump_float a out_np w = (Ok tt, w).
Proof. intros H. unfold Runner.dump_float. rewrite H. reflexivity. Qed.

(** C8 fails on the code. The block of lines 113 to 127 writes into the
    directory of the histograms before line 141 makes the directory. With
    a float output and no such directory, the run ends at the first of
    these writes with an uncaught [FileNotFoundError]: the directory is
    never asked for, nothing is written, the output image is not saved.
    With the directory in place, the float histogram is written before the
    directory is asked for. *)
Theorem float_histogram_precedes_makedirs :
  Runner.run_script
    (Examples.answering [("output_image"%string, Runner.Image Examples.dark_output)])
    Examples.run_args Examples.world_with_input
  = (Uncaught (FileNotFoundError ["output"%string; "output_float.npy"%string]),
     logged Examples.world_with_input
       [Call "MLModel"; Call "Image.open"; Call "predict"; Stdout MsgInferenceTime;
        Stdout (MsgOutType "output_image"); Stdout (MsgPillowMode PIL.F);
        Stdout (MsgDebugArray Np.float32 [1; 1]%nat (3 # 16) (3 # 16));
        Stdout (MsgOutputStats (3 # 16) (3 # 16) Np.float32 [1; 1]%nat);
        Call "np.save"])
  /\ log (snd (Runner.run_script
        (Examples.answering [("output_image"%string, Runner.Image Examples.dark_output)])
        Examples.run_args Examples.world_with_hist_dir))
     = [Call "MLModel"; Call "Image.open"; Call "predict"; Stdout MsgInferenceTime;
        Stdout (MsgOutType "output_image"); Stdout (MsgPillowMode PIL.F);
        Stdout (MsgDebugArray Np.float32 [1; 1]%nat (3 # 16) (3 # 16));
        Stdout (MsgOutputStats (3 # 16) (3 # 16) Np.float32 [1; 1]%nat);
        Call "np.save"; Write ["output"%string; "output_float.npy"%string];
        Stdout (MsgFloatSaved ["output"%string; "output_float.npy"%string]);
        Stdout (MsgFloatStats (3 # 16) (3 # 16));
        Call "plt.savefig"; Write ["output"%string; "hist_output_float.png"%string];
        Stdout (MsgFloatHistSaved ["output"%string; "hist_output_float.png"%string]);
        Call "Image.save"; Write ["out.png"%string];
        Stdout (MsgSaved ["out.png"%string]);
        Makedirs ["output"%string];
        Call "plt.savefig"; Write ["output"%string; "hist_output.png"%string];
        Stdout (MsgHistSaved ["output"%string; "hist_output.png"%string])].
Proof. split; vm_compute; reflexivity. Qed.

(** For an output of integer samples the order is the one the claim asks
    for: the directory is asked for before the only histogram is
    written. *)
Lemma integer_output_makes_directory_first :
  log (snd (Runner.run_script (Examples.answering Examples.renamed_result)
              Examples.run_args Examples.world_with_input))
  = [Call "MLModel"; Call "Image.open"; Call "predict"; Stdout MsgInferenceTime;
     Stdout (MsgOutputKeyFound "var_1234"); Stdout (MsgOutType "var_1234");
     Stdout (MsgPillowMode PIL.RGB);
     Stdout (MsgDebugArray Np.uint8 [1; 1; 3]%nat 10 30);
     Stdout (MsgOutputStats 10 30 Np.uint8 [1; 1; 3]%nat);
     Call "Image.save"; Write ["out.png"%string];
     Stdout (MsgSaved ["out.png"%string]);
     Makedirs ["output"%string];
     Call "plt.savefig"; Write ["output"%string; "hist_output.png"%string];
     Stdout (MsgHistSaved ["output"%string; "hist_output.png"%string])].
Proof. vm_compute. reflexivity. Qed.

End HistogramDirectory.

(** ** Reloading the saved image *)

Section RoundTrip.
Import Py Sys.

Lemma makedirs_files (p : path) (w w' : world) (r : res unit) :
  makedirs p w = (r, w') -> files (fs w') = files (fs w).
Proof.
  unfold makedirs, bind, emit. simpl.
  destruct (files (fs w) !! p); intros H; inversion H; reflexivity.
Qed.

Lemma save_histogram_ok (a : Runner.args) (out_np : Np.ndarray) (w w' : world) :
  Runner.save_histogram a out_np w = (Ok tt, w') ->
  exists c,
    files (fs w') = <[join (Runner.hist_dir a) "hist_output.png" := c]> (files (fs w)).
Proof.
  unfold Runner.save_histogram, bind.
  destruct (makedirs (Runner.hist_dir a) w) as [[[]|e] w0] eqn:Hmk; [|discriminate].
  apply makedirs_files in Hmk.
  match goal with
  | |- context [let (_, _) := ?v w0 in _] =>
      destruct (v w0) as [[values|e] w1] eqn:Hv
  end; [|discriminate].
  assert (Hfs : files (fs w1) = files (fs w0)).
  { revert Hv. unfold lift, ret, bind.
    destruct (Np.is_floating _).
    - destruct (Np.max _) as [m|e]; [|discriminate].
      destruct (Qle_bool m 1); intros H; inversion H; reflexivity.
    - intros H; inversion H; reflexivity. }
  match goal with
  | |- context [write_file ?f ?p ?c ?w0] =>
      destruct (write_file f p c w0) as [[[]|e] w2] eqn:Hw
  end; [|discriminate].
  apply write_file_ok in Hw. destruct Hw as (Hf & _ & _).
  unfold print, emit. intros H; inversion H; subst; simpl.
  eexists. rewrite Hf, Hfs, Hmk. reflexivity.
Qed.

(** C9, as the code has it. When the steps after the selection return for
    the output image [out] of the model, and the output path is not the
    path of the histogram (which is written later), reloading the file at
    the output path with [load_image] gives a 3-channel 8-bit image whose
    width and height are those of [out], the image the model returned. *)
Theorem reloaded_image_has_output_size
    (a : Runner.args) (k : string) (out : PIL.image) (w w' : world) :
  Runner.handle_output a k (Runner.Image out) w = (Ok tt, w') ->
  Runner.output a <> join (Runner.hist_dir a) "hist_output.png" ->
  exists img,
    fst (Runner.load_image (Runner.output a) w') = Ok img
    /\ PIL.im_mode img = PIL.RGB
    /\ PIL.width img = PIL.width out
    /\ PIL.height img = PIL.height out.
Proof.
  unfold Runner.handle_output, bind, Runner.check_image, ret.
  destruct (Runner.inspect k out w) as [[out_np|e] w1]; [|discriminate].
  destruct (Runner.dump_float a out_np w1) as [[[]|e] w2]; [|discriminate].
  destruct (Runner.save_output a out w2) as [[[]|e] w3] eqn:Hsave; [|discriminate].
  intros Hh Hne.
  apply save_output_ok in Hsave.
  destruct Hsave as (img & pic & Himg & Hpic & Hf & _ & _).
  apply save_histogram_ok in Hh. destruct Hh as [c Hf'].
  apply to_uint8_image_spec in Himg. destruct Himg as (m & _ & Hd & Hs & _).
  destruct (fromarray_of_image out img Hd Hs) as (pic' & Hpic' & Hw & Hh & _).
  rewrite Hpic in Hpic'. inversion Hpic'; subst pic'.
  exists (PIL.convert_RGB pic).
  rewrite (load_image_ok (Runner.output a) pic).
  - simpl. auto.
  - rewrite Hf', lookup_insert_ne by congruence. rewrite Hf. apply lookup_insert_eq.
Qed.

Lemma reloaded_image_has_output_size_witness :
  exists img,
    fst (Runner.load_image (Runner.output Examples.run_args)
           (snd (Runner.handle_output Examples.run_args "output_image"
                   (Runner.Image Examples.enlarged_output)
                   Examples.world_with_input))) = Ok img
    /\ PIL.im_mode img = PIL.RGB
    /\ PIL.width img = PIL.width Examples.enlarged_output
    /\ PIL.height img = PIL.height Examples.enlarged_output.
Proof.
  apply (reloaded_image_has_output_size Examples.run_args "output_image"
           Examples.enlarged_output Examples.world_with_input).
  - vm_compute. reflexivity.
  - discriminate.
Defined.

(** C9 fails as stated. A model that answers the 1 by 1 input with a 4 by
    4 image: the run returns, the reloaded file is a 3-channel 8-bit image
    of 4 by 4, and the input, loaded the same way, is 1 by 1. *)
Lemma reloaded_image_is_not_input_size :
  fst (Runner.run_script
         (Examples.answering
            [("output_image"%string, Runner.Image Examples.enlarged_output)])
         Examples.run_args Examples.world_with_input) = Returned
  /\ exists saved original,
       fst (Runner.load_image (Runner.output Examples.run_args)
              (snd (Runner.run_script
                      (Examples.answering
                         [("output_image"%string,
                           Runner.Image Examples.enlarged_output)])
                      Examples.run_args Examples.world_with_input))) = Ok saved
       /\ fst (Runner.load_image (Runner.input Examples.run_args)
                 Examples.world_with_input) = Ok original
       /\ PIL.im_mode saved = PIL.RGB
       /\ (PIL.width saved, PIL.height saved) = (4, 4)%nat
       /\ (PIL.width original, PIL.height original) = (1, 1)%nat
       /\ (PIL.width saved, PIL.height saved)
          <> (PIL.width original, PIL.height original).
Proof.
  split; [vm_compute; reflexivity|].
  eexists _, _. split; [vm_compute; reflexivity|].
  split; [vm_compute; reflexivity|].
  repeat split. discriminate.
Qed.

End RoundTrip.

(** ** What the statements may touch *)

Section Confinement.
Import Py Sys Inv.

Lemma stable_refl (ps : list path) (w : world) : stable ps w w.
Proof. split; [|split]; auto. Qed.

Lemma stable_same_fs (ps : list path) (w w' : world) :
  fs w' = fs w -> stable ps w w'.
Proof. intros H. unfold stable. rewrite H. split; [|split]; auto. Qed.

Lemma stable_trans (ps : list path) (w1 w2 w3 : world) :
  stable ps w1 w2 -> stable ps w2 w3 -> stable ps w1 w3.
Proof.
  intros (Ha & Hb & Hc) (Ha' & Hb' & Hc'). split; [|split].
  - intros p Hp. rewrite Ha', Ha by exact Hp. reflexivity.
  - intros p Hp. auto.
  - set_solver.
Qed.

Lemma stable_mono (ps qs : list path) (w w' : world) :
  ps ⊆ qs -> stable ps w w' -> stable qs w w'.
Proof.
  intros Hsub (Ha & Hb & Hc). split; [|split; assumption].
  intros p Hp. apply Ha. intros Hin. apply Hp, Hsub, Hin.
Qed.

Lemma confined_mono {A} (ps qs : list path) (m : M A) :
  ps ⊆ qs -> confined ps m -> confined qs m.
Proof. intros Hsub Hm w r w' H. eapply stable_mono; eauto. Qed.

Lemma confined_ret {A} (ps : list path) (x : A) : confined ps (ret x).
Proof. intros w r w' H. invert_eq H. apply stable_refl. Qed.

Lemma confined_raise {A} (ps : list path) (e : exn) : confined ps (@raise A e).
Proof. intros w r w' H. invert_eq H. apply stable_refl. Qed.

Lemma confined_lift {A} (ps : list path) (x : res A) : confined ps (lift x).
Proof. intros w r w' H. invert_eq H. apply stable_refl. Qed.

Lemma confined_emit (ps : list path) (e : event) : confined ps (emit e).
Proof. intros w r w' H. invert_eq H. apply stable_same_fs. reflexivity. Qed.

Lemma confined_print (ps : list path) (m : message) : confined ps (print m).
Proof. apply confined_emit. Qed.

Lemma confined_call {A} (ps : list path) (f : string) (x : res A) :
  confined ps (call f x).
Proof. intros w r w' H. invert_eq H. apply stable_same_fs. reflexivity. Qed.

Lemma confined_bind {A B} (ps : list path) (m : M A) (k : A -> M B) :
  confined ps m -> (forall x, confined ps (k x)) -> confined ps (bind m k).
Proof.
  intros Hm Hk w r w'. unfold bind.
  destruct (m w) as [[x|e] w1] eqn:Hmw; intros H.
  - eapply stable_trans; [eapply Hm; eauto | eapply Hk; eauto].
  - invert_eq H. eapply Hm; eauto.
Qed.

Lemma confined_try {A} (ps : list path) (m : M A) :
  confined ps m -> confined ps (try m).
Proof.
  intros Hm w r w'. unfold try.
  destruct (m w) as [[x|e] w1] eqn:Hmw; intros H; invert_eq H; eapply Hm; eauto.
Qed.

Lemma confined_open_read (ps : list path) (p : path) : confined ps (open_read p).
Proof.
  intros w r w'. unfold open_read.
  destruct (files (fs w) !! p); intros H; invert_eq H; apply stable_refl.
Qed.

Lemma confined_read_file (ps : list path) (f : string) (p : path) :
  confined ps (read_file f p).
Proof.
  apply confined_bind; [apply confined_emit | intros; apply confined_open_read].
Qed.

Lemma confined_open_write (ps : list path) (p : path) (c : file) :
  p ∈ ps -> confined ps (open_write p c).
Proof.
  intros Hin w r w'. unfold open_write.
  destruct (bool_decide (p = []) || negb (is_dir (fs w) (dirname p)));
    intros H; invert_eq H; [apply stable_refl|].
  split; [|split]; simpl.
  - intros q Hq. apply lookup_insert_ne. intros ->. exact (Hq Hin).
  - intros q Hq. destruct (decide (p = q)) as [->|Hne].
    + rewrite lookup_insert_eq. eauto.
    + rewrite lookup_insert_ne by exact Hne. exact Hq.
  - reflexivity.
Qed.

Lemma confined_write_file (ps : list path) (f : string) (p : path) (c : file) :
  p ∈ ps -> confined ps (write_file f p c).
Proof.
  intros Hin. apply confined_bind;
    [apply confined_emit | intros; apply confined_open_write, Hin].
Qed.

Lemma confined_makedirs (ps : list path) (p : path) : confined ps (makedirs p).
Proof.
  apply confined_bind; [apply confined_emit|]. intros _ w r w'.
  destruct (files (fs w) !! p); intros H; invert_eq H; [apply stable_refl|].
  split; [|split]; simpl; auto. set_solver.
Qed.

End Confinement.

Create HintDb confined.
#[local] Hint Resolve confined_ret confined_raise confined_lift confined_emit
  confined_print confined_call confined_try confined_read_file
  confined_makedirs : confined.

(** A log that went on from [log w]. *)
Ltac log_extended :=
  first [ exists []; rewrite app_nil_r; reflexivity
        | eexists; rewrite <- ?app_assoc; reflexivity ].

(** ** The runs of the converter *)

Section ConverterRuns.
Import Py Sys Inv.

Lemma load_rrdbnet_raised (tc : Converter.toolchain) (p : path) (w w' : world) (e : exn) :
  Converter.load_rrdbnet tc p w = (Raise e, w') ->
  fs w' = fs w /\ exists l, log w' = log w ++ l.
Proof.
  unfold Converter.load_rrdbnet, Converter.torch_load, read_file, open_read,
    bind, emit, ret, raise; simpl.
  destruct (files (fs w) !! p) as [[| | |c|]|];
    try (intros H; invert_eq H; simpl; split; [reflexivity | log_extended]).
  unfold bind, lift, call.
  destruct (contains "params_ema" c).
  - destruct (getitem c "params_ema");
      intros H; invert_eq H; simpl; split; try reflexivity; log_extended.
  - destruct (contains "params" c).
    + destruct (getitem c "params");
        intros H; invert_eq H; simpl; split; try reflexivity; log_extended.
    + intros H; invert_eq H; simpl; split; [reflexivity | log_extended].
Qed.

Lemma load_rrdbnet_returned (tc : Converter.toolchain) (p : path) (w w' : world)
    (net : Torch.network) :
  Converter.load_rrdbnet tc p w = (Ok net, w') ->
  w' = logged w [Call "RRDBNet"; Call "torch.load"; Call "load_state_dict"].
Proof.
  unfold Converter.load_rrdbnet, Converter.torch_load, read_file, open_read,
    bind, emit, ret, raise; simpl.
  destruct (files (fs w) !! p) as [[| | |c|]|]; try discriminate.
  unfold bind, lift, call, logged.
  destruct (contains "params_ema" c).
  - destruct (getitem c "params_ema"); intros H; invert_eq H; simpl.
    rewrite <- !app_assoc. reflexivity.
  - destruct (contains "params" c); [|discriminate].
    destruct (getitem c "params"); intros H; invert_eq H; simpl.
    rewrite <- !app_assoc. reflexivity.
Qed.

(** The weights [load_rrdbnet] takes, and what it does with them. *)
Lemma load_rrdbnet_selected
    (tc : Converter.toolchain) (p : path) (w : world) (ckpt : Torch.checkpoint)
    (sd : Torch.state_dict) :
  files (fs w) !! p = Some (FCheckpoint ckpt) ->
  dict_get "params_ema" ckpt = Some sd
  \/ (dict_get "params_ema" ckpt = None /\ dict_get "params" ckpt = Some sd) ->
  Converter.load_rrdbnet tc p w
  = (Converter.load_state_dict tc sd,
     logged w [Call "RRDBNet"; Call "torch.load"; Call "load_state_dict"]).
Proof.
  intros Hf Hkey.
  unfold Converter.load_rrdbnet, Converter.torch_load, read_file, open_read,
    bind, emit, ret; simpl. rewrite Hf.
  unfold bind, lift, call, contains, getitem, logged.
  destruct Hkey as [H | [H1 H2]].
  - rewrite H. simpl. rewrite <- !app_assoc. reflexivity.
  - rewrite H1, H2. simpl. rewrite <- !app_assoc. reflexivity.
Qed.

(** X1. The weights come from [params_ema] when the checkpoint has that
    key, whether or not it has [params] as well and wherever the keys stand
    in the file; they come from [params] when [params_ema] is missing. In
    both cases the network is loaded once, from these weights, and what
    [load_rrdbnet] gives is what that load gives. *)
Theorem checkpoint_key_choice
    (tc : Converter.toolchain) (p : path) (w : world) (ckpt : Torch.checkpoint) :
  files (fs w) !! p = Some (FCheckpoint ckpt) ->
  (forall sd,
      dict_get "params_ema" ckpt = Some sd ->
      Converter.load_rrdbnet tc p w
      = (Converter.load_state_dict tc sd,
         logged w [Call "RRDBNet"; Call "torch.load"; Call "load_state_dict"]))
  /\ (forall sd,
        dict_get "params_ema" ckpt = None ->
        dict_get "params" ckpt = Some sd ->
        Converter.load_rrdbnet tc p w
        = (Converter.load_state_dict tc sd,
           logged w [Call "RRDBNet"; Call "torch.load"; Call "load_state_dict"])).
Proof.
  intros Hf. split.
  - intros sd H. apply (load_rrdbnet_selected tc p w ckpt sd Hf). left. exact H.
  - intros sd H1 H2. apply (load_rrdbnet_selected tc p w ckpt sd Hf). right.
    split; assumption.
Qed.

Lemma checkpoint_key_choice_witness :
  Converter.load_rrdbnet Examples.coremltools_like ["weights.pth"%string]
    (Examples.world_with_checkpoint Cases.both_checkpoint)
  = (Converter.load_state_dict Examples.coremltools_like Cases.ema_weights,
     logged (Examples.world_with_checkpoint Cases.both_checkpoint)
       [Call "RRDBNet"; Call "torch.load"; Call "load_state_dict"])
  /\ Converter.load_rrdbnet Examples.coremltools_like ["weights.pth"%string]
       (Examples.world_with_checkpoint Cases.raw_checkpoint)
     = (Converter.load_state_dict Examples.coremltools_like Cases.raw_weights,
        logged (Examples.world_with_checkpoint Cases.raw_checkpoint)
          [Call "RRDBNet"; Call "torch.load"; Call "load_state_dict"]).
Proof.
  split.
  - apply (proj1 (checkpoint_key_choice Examples.coremltools_like ["weights.pth"%string]
                    (Examples.world_with_checkpoint Cases.both_checkpoint)
                    Cases.both_checkpoint eq_refl)).
    reflexivity.
  - apply (proj2 (checkpoint_key_choice Examples.coremltools_like ["weights.pth"%string]
                    (Examples.world_with_checkpoint Cases.raw_checkpoint)
                    Cases.raw_checkpoint eq_refl)); reflexivity.
Defined.

(** Everything the body of the [try] can do. *)
Lemma convert_and_save_effects (tc : Converter.toolchain) (a : Converter.args)
    (w w' : world) (r : res unit) :
  Converter.convert_and_save tc a w = (r, w') ->
  match r with
  | Raise _ => fs w' = fs w /\ exists l, log w' = log w ++ l
  | Ok _ =>
      exists pkg,
        files (fs w') = <[Converter.out a := FPackage pkg]> (files (fs w))
        /\ dirs (fs w') = dirs (fs w)
        /\ CoreML.declared_inputs pkg = [Converter.input_desc a]
        /\ CoreML.declared_outputs pkg = [Converter.output_desc]
        /\ CoreML.deployment_target pkg = Converter.target_map (Converter.target a)
        /\ CoreML.package_precision pkg
           = (if Converter.float16 a then CoreML.FLOAT16 else CoreML.FLOAT32)
        /\ CoreML.weight_bits pkg
           = (if Converter.float16 a then Some 16%nat else None)
        /\ log w' = log w ++
             [Call "RRDBNet"; Call "torch.load"; Call "load_state_dict"; Call "torch.rand";
              Call "torch.jit.trace"; Stdout MsgInfoInput; Stdout MsgInfoOutput;
              Stdout (MsgInfoShape (Converter.min_dim a) (Converter.max_dim a));
              Call "ct.convert"; Stdout MsgDebugType; Stdout MsgDebugValue]
             ++ (if Converter.float16 a
                 then [Stdout MsgInfoFP16; Call "quantize_weights"] else [])
             ++ [Stdout (MsgSaving (Converter.out a)); Call "MLModel.save";
                 Write (Converter.out a); Stdout MsgComplete]
  end.
Proof.
  unfold Converter.convert_and_save, bind.
  destruct (Converter.load_rrdbnet tc (Converter.pth a) w) as [[net|e] w1] eqn:Hload.
  2:{ apply load_rrdbnet_raised in Hload. intros H; invert_eq H. exact Hload. }
  apply load_rrdbnet_returned in Hload. subst w1.
  unfold call, print, emit, ret, logged; simpl.
  destruct (Converter.torch_rand tc (Converter.trace_size a)) as [ex|e].
  2:{ intros H; invert_eq H; simpl. split; [reflexivity | log_extended]. }
  destruct (Converter.jit_trace tc _ ex) as [traced|e].
  2:{ intros H; invert_eq H; simpl. split; [reflexivity | log_extended]. }
  unfold Converter.ct_convert.
  destruct (Converter.convert_program tc traced (Converter.conversion_options a))
    as [prog|e].
  2:{ intros H; invert_eq H; simpl. split; [reflexivity | log_extended]. }
  destruct (Converter.float16 a) eqn:Hfp.
  - unfold Converter.quantize_weights.
    match goal with
    | |- context [Converter.quantize_program tc ?m ?n] =>
        destruct (Converter.quantize_program tc m n) as [prog'|e]
    end.
    2:{ intros H; invert_eq H; simpl. split; [reflexivity | log_extended]. }
    unfold Converter.save.
    match goal with
    | |- context [write_file ?f ?p ?c ?w0] =>
        destruct (write_file f p c w0) as [[[]|e] w2] eqn:Hw
    end.
    + apply write_file_ok in Hw. simpl in Hw. destruct Hw as (Hf & Hd & Hl).
      intros H; invert_eq H; simpl. eexists. rewrite Hf, Hd, Hl, Hfp.
      repeat (split; [reflexivity|]). rewrite <- !app_assoc. reflexivity.
    + unfold write_file, bind, emit in Hw. apply open_write_failed in Hw.
      intros H; invert_eq H; simpl. split; [reflexivity | log_extended].
  - unfold Converter.save.
    match goal with
    | |- context [write_file ?f ?p ?c ?w0] =>
        destruct (write_file f p c w0) as [[[]|e] w2] eqn:Hw
    end.
    + apply write_file_ok in Hw. simpl in Hw. destruct Hw as (Hf & Hd & Hl).
      intros H; invert_eq H; simpl. eexists. rewrite Hf, Hd, Hl, Hfp.
      repeat (split; [reflexivity|]). rewrite <- !app_assoc. reflexivity.
    + unfold write_file, bind, emit in Hw. apply open_write_failed in Hw.
      intros H; invert_eq H; simpl. split; [reflexivity | log_extended].
Qed.

(** X2. [main] of the converter ends in one of two ways, never with an
    exception of its own: it returns, and then the package is at the output
    path and the last line printed says that the conversion is complete; or
    it exits with status 1, and then the last two lines, on the error
    stream, report one and the same exception. When the exception came
    before the save was entered, the files are the ones the run started
    with. *)
Theorem converter_exit_contract
    (tc : Converter.toolchain) (a : Converter.args) (w : world) :
  match Converter.main tc a w with
  | (Returned, w') =>
      exists pkg l,
        files (fs w') !! Converter.out a = Some (FPackage pkg)
        /\ log w' = log w ++ l ++ [Stdout MsgComplete]
  | (Exited n, w') =>
      n = 1
      /\ exists e l,
          log w' = log w ++ l ++ [Stderr (MsgConvertError e); Stderr (MsgTraceback e)]
          /\ (Call "MLModel.save" ∉ l -> fs w' = fs w)
  | (Uncaught _, _) => False
  end.
Proof.
  unfold Converter.main.
  destruct (Converter.convert_and_save tc a w) as [[[]|e] w'] eqn:Hrun;
    apply convert_and_save_effects in Hrun.
  - destruct Hrun as (pkg & Hf & _ & _ & _ & _ & _ & _ & Hl). exists pkg.
    exists ([Call "RRDBNet"; Call "torch.load"; Call "load_state_dict";
             Call "torch.rand"; Call "torch.jit.trace"; Stdout MsgInfoInput;
             Stdout MsgInfoOutput;
             Stdout (MsgInfoShape (Converter.min_dim a) (Converter.max_dim a));
             Call "ct.convert"; Stdout MsgDebugType; Stdout MsgDebugValue]
            ++ (if Converter.float16 a
                then [Stdout MsgInfoFP16; Call "quantize_weights"] else [])
            ++ [Stdout (MsgSaving (Converter.out a)); Call "MLModel.save";
                Write (Converter.out a)]).
    split; [rewrite Hf; apply lookup_insert_eq|].
    rewrite Hl. destruct (Converter.float16 a); reflexivity.
  - destruct Hrun as (Hfs & l & Hl). unfold bind, eprint, emit; simpl.
    split; [reflexivity|]. exists e, l. split; [|intros _; exact Hfs].
    rewrite Hl, <- !app_assoc. reflexivity.
Qed.

(** X4. When the converter returns, its steps were, in this order: the
    construction of the network, the load of the checkpoint and of the
    weights, the random example, the trace, the three lines on the input and
    the output, the conversion and its two debug lines, the quantization
    (entered exactly when [--float16] was given), the save, and only after
    the file is written the line that says the conversion is complete. *)
Theorem converter_success_order
    (tc : Converter.toolchain) (a : Converter.args) (w : world) :
  fst (Converter.main tc a w) = Returned ->
  log (snd (Converter.main tc a w))
  = log w ++
      [Call "RRDBNet"; Call "torch.load"; Call "load_state_dict"; Call "torch.rand";
       Call "torch.jit.trace"; Stdout MsgInfoInput; Stdout MsgInfoOutput;
       Stdout (MsgInfoShape (Converter.min_dim a) (Converter.max_dim a));
       Call "ct.convert"; Stdout MsgDebugType; Stdout MsgDebugValue]
      ++ (if Converter.float16 a
          then [Stdout MsgInfoFP16; Call "quantize_weights"] else [])
      ++ [Stdout (MsgSaving (Converter.out a)); Call "MLModel.save";
          Write (Converter.out a); Stdout MsgComplete].
Proof.
  unfold Converter.main.
  destruct (Converter.convert_and_save tc a w) as [[[]|e] w'] eqn:Hrun;
    apply convert_and_save_effects in Hrun; simpl; [|discriminate].
  intros _. destruct Hrun as (pkg & _ & _ & _ & _ & _ & _ & _ & Hl). exact Hl.
Qed.

Lemma converter_success_order_witness :
  log (snd (Converter.main Examples.coremltools_like (Cases.convert_args32 64 2048)
              (Examples.world_with_checkpoint Examples.good_checkpoint)))
  = [Call "RRDBNet"; Call "torch.load"; Call "load_state_dict"; Call "torch.rand";
     Call "torch.jit.trace"; Stdout MsgInfoInput; Stdout MsgInfoOutput;
     Stdout (MsgInfoShape 64 2048);
     Call "ct.convert"; Stdout MsgDebugType; Stdout MsgDebugValue;
     Stdout (MsgSaving ["model.mlpackage"%string]); Call "MLModel.save";
     Write ["model.mlpackage"%string]; Stdout MsgComplete].
Proof.
  apply (converter_success_order Examples.coremltools_like
           (Cases.convert_args32 64 2048)
           (Examples.world_with_checkpoint Examples.good_checkpoint)).
  vm_compute. reflexivity.
Defined.

(** X6. When the network does not take the weights of the checkpoint (the
    strict load raises), the converter reports that exception and exits
    with status 1 right after the load: no example is drawn, nothing is
    traced, converted or saved. *)
Theorem weight_mismatch_is_fatal
    (tc : Converter.toolchain) (a : Converter.args) (w : world)
    (ckpt : Torch.checkpoint) (sd : Torch.state_dict) (e : exn) :
  files (fs w) !! Converter.pth a = Some (FCheckpoint ckpt) ->
  dict_get "params_ema" ckpt = Some sd
  \/ (dict_get "params_ema" ckpt = None /\ dict_get "params" ckpt = Some sd) ->
  Converter.load_state_dict tc sd = Raise e ->
  Converter.main tc a w
  = (Exited 1,
     logged w [Call "RRDBNet"; Call "torch.load"; Call "load_state_dict";
               Stderr (MsgConvertError e); Stderr (MsgTraceback e)]).
Proof.
  intros Hf Hkey He.
  assert (Hload : Converter.load_rrdbnet tc (Converter.pth a) w
                  = (Raise e, logged w [Call "RRDBNet"; Call "torch.load"; Call "load_state_dict"])).
  { rewrite (load_rrdbnet_selected tc (Converter.pth a) w ckpt sd Hf Hkey), He.
    reflexivity. }
  unfold Converter.main, Converter.convert_and_save, bind. rewrite Hload.
  unfold eprint, emit, logged; simpl. rewrite <- !app_assoc. reflexivity.
Qed.

Lemma weight_mismatch_is_fatal_witness :
  Converter.main Cases.mismatching (Examples.convert_args 64 2048)
    (Examples.world_with_checkpoint Cases.both_checkpoint)
  = (Exited 1,
     logged (Examples.world_with_checkpoint Cases.both_checkpoint)
       [Call "RRDBNet"; Call "torch.load"; Call "load_state_dict";
        Stderr (MsgConvertError
                  (RuntimeError "Error(s) in loading state_dict for RRDBNet"));
        Stderr (MsgTraceback
                  (RuntimeError "Error(s) in loading state_dict for RRDBNet"))]).
Proof.
  apply (weight_mismatch_is_fatal Cases.mismatching (Examples.convert_args 64 2048)
           (Examples.world_with_checkpoint Cases.both_checkpoint)
           Cases.both_checkpoint Cases.ema_weights).
  - reflexivity.
  - left. reflexivity.
  - reflexivity.
Defined.

(** X7. When there is no file at the path of the checkpoint, the network
    is built, [torch.load] raises the [FileNotFoundError] of that path, and
    the converter reports it and exits with status 1: no weights were
    loaded, nothing was traced or converted, and no file was written. *)
Theorem missing_checkpoint_is_fatal
    (tc : Converter.toolchain) (a : Converter.args) (w : world) :
  files (fs w) !! Converter.pth a = None ->
  Converter.main tc a w
  = (Exited 1,
     logged w [Call "RRDBNet"; Call "torch.load";
               Stderr (MsgConvertError (FileNotFoundError (Converter.pth a)));
               Stderr (MsgTraceback (FileNotFoundError (Converter.pth a)))]).
Proof.
  intros Hf.
  unfold Converter.main, Converter.convert_and_save, Converter.load_rrdbnet,
    Converter.torch_load, read_file, open_read, bind, emit. simpl. rewrite Hf.
  unfold eprint, emit, logged; simpl. rewrite <- !app_assoc. reflexivity.
Qed.

Lemma missing_checkpoint_is_fatal_witness :
  Converter.main Examples.coremltools_like (Examples.convert_args 64 2048) Examples.empty_world
  = (Exited 1,
     logged Examples.empty_world
       [Call "RRDBNet"; Call "torch.load";
        Stderr (MsgConvertError (FileNotFoundError ["weights.pth"%string]));
        Stderr (MsgTraceback (FileNotFoundError ["weights.pth"%string]))]).
Proof.
  apply (missing_checkpoint_is_fatal Examples.coremltools_like (Examples.convert_args 64 2048)
           Examples.empty_world).
  reflexivity.
Defined.

End ConverterRuns.

(** ** The output transform, value by value *)

(** The comparisons of the goal and of the hypotheses, as inequalities. *)
Ltac q_compare :=
  repeat match goal with
         | H : Qle_bool _ _ = true |- _ => apply Qle_bool_iff in H
         | H : Qle_bool _ _ = false |- _ =>
             apply not_true_iff_false in H; rewrite Qle_bool_iff in H;
             apply Qnot_le_lt in H
         | H : negb _ = false |- _ => apply negb_false_iff in H
         | H : negb _ = true |- _ => apply negb_true_iff in H
         end.

Section Transform.
Import Torch Inv.

Lemma clamp1_monotone (y1 y2 : f32) :
  le y1 y2 ->
  exists q1 q2,
    clamp1 (Fin 0) (Fin 1) y1 = Fin q1 /\ clamp1 (Fin 0) (Fin 1) y2 = Fin q2
    /\ (0 <= q1 /\ q1 <= q2 /\ q2 <= 1)%Q.
Proof.
  intros (H1 & H2 & H12).
  destruct y1 as [| | |q1]; [congruence| | |];
    destruct y2 as [| | |q2]; try congruence; try discriminate;
    unfold clamp1; simpl in *.
  - exists 0%Q, 0%Q. repeat split; lra.
  - exists 0%Q, 1%Q. repeat split; lra.
  - destruct (Qle_bool 0 q2) eqn:Ha; simpl.
    + destruct (Qle_bool q2 1) eqn:Hb; simpl; q_compare.
      * exists 0%Q, q2. repeat split; lra.
      * exists 0%Q, 1%Q. repeat split; lra.
    + exists 0%Q, 0%Q. repeat split; lra.
  - exists 1%Q, 1%Q. repeat split; lra.
  - destruct (Qle_bool 0 q1) eqn:Ha; simpl.
    + destruct (Qle_bool q1 1) eqn:Hb; simpl; q_compare.
      * exists q1, 1%Q. repeat split; lra.
      * exists 1%Q, 1%Q. repeat split; lra.
    + exists 0%Q, 1%Q. repeat split; lra.
  - q_compare.
    destruct (Qle_bool 0 q1) eqn:Ha; simpl;
      destruct (Qle_bool 0 q2) eqn:Hb; simpl;
      try destruct (Qle_bool q1 1) eqn:Hc; simpl;
      try destruct (Qle_bool q2 1) eqn:Hd; simpl; q_compare;
      eexists _, _; (split; [reflexivity|]); (split; [reflexivity|]); lra.
Qed.

(** X9. The output transform keeps the order of the values: when every
    element of one output of the base model is at most the element at the
    same place of another (none of them a NaN), the same holds for the two
    outputs of the wrapped model. *)
Theorem forward_monotone (base : network) (x1 x2 : tensor) :
  Forall2 le (elems (base x1)) (elems (base x2)) ->
  Forall2 le
    (elems (Converter.forward {| Converter.base_model := base |} x1))
    (elems (Converter.forward {| Converter.base_model := base |} x2)).
Proof.
  unfold Converter.forward; simpl.
  induction 1 as [|y1 y2 l1 l2 Hy _ IH]; simpl; constructor; [|exact IH].
  destruct (clamp1_monotone y1 y2 Hy) as (q1 & q2 & -> & -> & Hq). simpl.
  repeat split; try discriminate.
  apply negb_false_iff, Qle_bool_iff. lra.
Qed.

Lemma forward_monotone_witness :
  Forall2 le
    (elems (Converter.forward {| Converter.base_model := Examples.passing |}
              {| shape := [2]%nat; elems := [NegInf; Fin (1 # 4)] |}))
    (elems (Converter.forward {| Converter.base_model := Examples.passing |}
              {| shape := [2]%nat; elems := [Fin (1 # 2); PosInf] |})).
Proof.
  apply (forward_monotone Examples.passing).
  repeat constructor; discriminate.
Defined.

End Transform.

(** ** The runner, stage by stage *)

Section RunnerStages.
Import Py Sys Inv.

Lemma fold_maximum_spec (xs : list Q) (x : Q) :
  (fold_left Np.Qmaximum xs x = x \/ fold_left Np.Qmaximum xs x ∈ xs)
  /\ (x <= fold_left Np.Qmaximum xs x)%Q
  /\ Forall (fun v => (v <= fold_left Np.Qmaximum xs x)%Q) xs.
Proof.
  revert x. induction xs as [|y ys IH]; intros x; simpl.
  - repeat split; [left; reflexivity | lra | constructor].
  - destruct (IH (Np.Qmaximum x y)) as (Hin & Hle & Hall).
    assert (Hxy : (x <= Np.Qmaximum x y /\ y <= Np.Qmaximum x y)%Q
                  /\ (Np.Qmaximum x y = x \/ Np.Qmaximum x y = y)).
    { unfold Np.Qmaximum. destruct (Qle_bool x y) eqn:Hc; q_compare;
        (split; [split; lra | auto]). }
    destruct Hxy as ((Hx & Hy) & Hsel). split; [|split].
    + destruct Hin as [Hin|Hin].
      * rewrite Hin. destruct Hsel as [->| ->]; [left; reflexivity|].
        right. apply list_elem_of_here.
      * right. apply list_elem_of_further, Hin.
    + lra.
    + constructor; [lra | exact Hall].
Qed.

(** The maximum of an array is one of its elements and no element is above
    it. *)
Lemma max_spec (arr : Np.ndarray) (m : Q) :
  Np.max arr = Ok m ->
  m ∈ Np.data arr /\ Forall (fun v => (v <= m)%Q) (Np.data arr).
Proof.
  unfold Np.max. destruct (Np.data arr) as [|x xs]; [discriminate|].
  intros H. invert_eq H.
  destruct (fold_maximum_spec xs x) as (Hin & Hle & Hall). split.
  - destruct Hin as [-> | Hin]; [apply list_elem_of_here|].
    apply list_elem_of_further, Hin.
  - constructor; assumption.
Qed.

Lemma max_of_nonempty (arr : Np.ndarray) :
  Np.data arr <> [] -> exists m, Np.max arr = Ok m.
Proof.
  unfold Np.max. destruct (Np.data arr); [congruence|]. eauto.
Qed.

Lemma min_of_nonempty (arr : Np.ndarray) :
  Np.data arr <> [] -> exists m, Np.min arr = Ok m.
Proof.
  unfold Np.min. destruct (Np.data arr); [congruence|]. eauto.
Qed.

(** The diagnostics of a non-empty output: four lines, and the array. *)
Lemma inspect_ok (k : string) (out : PIL.image) (w : world) :
  PIL.pixels out <> [] ->
  exists lo hi,
    Np.min (PIL.np_array out) = Ok lo /\ Np.max (PIL.np_array out) = Ok hi
    /\ Runner.inspect k out w
       = (Ok (PIL.np_array out),
          logged w
            [Stdout (MsgOutType k); Stdout (MsgPillowMode (PIL.im_mode out));
             Stdout (MsgDebugArray (Np.dtype_of (PIL.np_array out))
                       (Np.shape (PIL.np_array out)) lo hi);
             Stdout (MsgOutputStats lo hi (Np.dtype_of (PIL.np_array out))
                       (Np.shape (PIL.np_array out)))]).
Proof.
  intros Hne.
  destruct (min_of_nonempty (PIL.np_array out) Hne) as [lo Hlo].
  destruct (max_of_nonempty (PIL.np_array out) Hne) as [hi Hhi].
  exists lo, hi. split; [exact Hlo|]. split; [exact Hhi|].
  unfold Runner.inspect, bind, print, emit, lift, ret, logged. simpl.
  rewrite Hlo, Hhi. simpl. rewrite <- !app_assoc. reflexivity.
Qed.

Lemma inspect_empty (k : string) (out : PIL.image) (w : world) :
  PIL.pixels out = [] ->
  Runner.inspect k out w
  = (Raise (ValueError "zero-size array to reduction operation minimum"),
     logged w [Stdout (MsgOutType k); Stdout (MsgPillowMode (PIL.im_mode out))]).
Proof.
  intros He.
  unfold Runner.inspect, bind, print, emit, lift, ret, logged, Np.min. simpl.
  rewrite He. simpl. rewrite <- !app_assoc. reflexivity.
Qed.

Lemma inspect_cases (k : string) (out : PIL.image) (w w' : world)
    (r : res Np.ndarray) :
  Runner.inspect k out w = (r, w') ->
  fs w' = fs w
  /\ match r with
     | Ok arr => arr = PIL.np_array out /\ PIL.pixels out <> []
     | Raise _ => PIL.pixels out = []
     end.
Proof.
  destruct (PIL.pixels out) as [|x xs] eqn:Hpx.
  - rewrite (inspect_empty k out w Hpx). intros H. invert_eq H. auto.
  - assert (Hne : PIL.pixels out <> []) by (rewrite Hpx; discriminate).
    destruct (inspect_ok k out w Hne) as (lo & hi & _ & _ & ->).
    intros H. invert_eq H. repeat split. discriminate.
Qed.

(** X11. When the prediction result has the key [output_image], that value
    is the output, wherever the key stands among the others: nothing is
    printed by the selection, and the run goes on with that value. *)
Theorem declared_output_preferred
    (a : Runner.args) (result : dict Runner.pyobj) (v : Runner.pyobj) (w : world) :
  dict_get "output_image" result = Some v ->
  Runner.select_output result w = (Ok ("output_image"%string, v), w)
  /\ Runner.process_result a result w = Runner.handle_output a "output_image" v w.
Proof.
  intros H.
  assert (Hsel : Runner.select_output result w = (Ok ("output_image"%string, v), w)).
  { unfold Runner.select_output, contains, getitem. rewrite H. reflexivity. }
  split; [exact Hsel|].
  unfold Runner.process_result, bind. rewrite Hsel. reflexivity.
Qed.

Lemma declared_output_preferred_witness :
  Runner.select_output
    (Examples.renamed_result
       ++ [("output_image"%string, Runner.Image Cases.colour_image)])
    Examples.world_with_input
  = (Ok ("output_image"%string, Runner.Image Cases.colour_image),
     Examples.world_with_input)
  /\ Runner.process_result Examples.run_args
       (Examples.renamed_result
          ++ [("output_image"%string, Runner.Image Cases.colour_image)])
       Examples.world_with_input
     = Runner.handle_output Examples.run_args "output_image"
         (Runner.Image Cases.colour_image) Examples.world_with_input.
Proof.
  apply (declared_output_preferred Examples.run_args
           (Examples.renamed_result
              ++ [("output_image"%string, Runner.Image Cases.colour_image)])).
  reflexivity.
Defined.

(** X12. When the prediction returns a result without any key, the run ends
    with the uncaught [StopIteration] of [next(iter(result.keys()))]: status
    1, and nothing printed after the inference time and nothing written. *)
Theorem empty_prediction_crashes
    (rt : Runner.runtime) (a : Runner.args) (w : world)
    (m : CoreML.mlmodel) (im : PIL.image) :
  Runner.MLModel rt (Runner.model a) (fs w) = Ok m ->
  files (fs w) !! Runner.input a = Some (FImage im) ->
  Runner.predict rt m [("input_image"%string, PIL.convert_RGB im)] = Ok [] ->
  Runner.run_script rt a w
  = (Uncaught StopIteration,
     logged w [Call "MLModel"; Call "Image.open"; Call "predict";
               Stdout MsgInferenceTime]).
Proof.
  intros Hm Hi Hp. unfold Runner.run_script, run.
  rewrite (main_predicted rt a w m im [] Hm Hi Hp). reflexivity.
Qed.

Lemma empty_prediction_crashes_witness :
  Runner.run_script (Examples.answering []) Examples.run_args Examples.world_with_input
  = (Uncaught StopIteration,
     logged Examples.world_with_input
       [Call "MLModel"; Call "Image.open"; Call "predict"; Stdout MsgInferenceTime]).
Proof.
  apply (empty_prediction_crashes (Examples.answering []) Examples.run_args
           Examples.world_with_input Examples.a_package
           (Examples.picture 1 1 PIL.L [7%Q])); reflexivity.
Defined.

(** X15. When the output image has no samples, the steps after the
    selection raise the [ValueError] of [min()] on an array without
    elements, after the first two debug lines and before anything is
    written. *)
Theorem empty_output_image_raises
    (a : Runner.args) (k : string) (out : PIL.image) (w : world) :
  PIL.pixels out = [] ->
  Runner.handle_output a k (Runner.Image out) w
  = (Raise (ValueError "zero-size array to reduction operation minimum"),
     logged w [Stdout (MsgOutType k); Stdout (MsgPillowMode (PIL.im_mode out))]).
Proof.
  intros He. unfold Runner.handle_output, bind, Runner.check_image, ret.
  rewrite (inspect_empty k out w He). reflexivity.
Qed.

Lemma empty_output_image_raises_witness :
  Runner.handle_output Examples.run_args "output_image"
    (Runner.Image Cases.empty_image) Examples.world_with_input
  = (Raise (ValueError "zero-size array to reduction operation minimum"),
     logged Examples.world_with_input
       [Stdout (MsgOutType "output_image"); Stdout (MsgPillowMode PIL.RGB)]).
Proof.
  apply (empty_output_image_raises Examples.run_args "output_image"
           Cases.empty_image Examples.world_with_input).
  reflexivity.
Defined.

(** An 8-bit sample goes through the clip and the conversion unchanged. *)
Lemma eight_bit_kept (v : Q) :
  eight_bit v -> inject_Z (Np.to_uint8 (Np.clip1 0 255 v)) = v.
Proof.
  intros (z & -> & Hz).
  assert (Hclip : Np.clip1 0 255 (inject_Z z) = inject_Z z).
  { unfold Np.clip1, Np.Qmaximum, Np.Qminimum.
    destruct (Qle_bool (inject_Z z) 0) eqn:Ha; q_compare.
    - assert (z = 0) as ->.
      { unfold Qle in Ha. simpl in Ha. lia. }
      reflexivity.
    - destruct (Qle_bool (inject_Z z) 255) eqn:Hb; q_compare; [reflexivity|].
      unfold Qlt in Hb. simpl in Hb. lia. }
  rewrite Hclip. unfold Np.to_uint8. simpl. rewrite Z.quot_1_r.
  rewrite Z.mod_small by lia. reflexivity.
Qed.

Lemma eight_bit_array_kept (px : list Q) :
  Forall eight_bit px ->
  map (fun v => inject_Z (Np.to_uint8 (Np.clip1 0 255 v))) px = px.
Proof.
  induction 1 as [|v vs Hv _ IH]; simpl; [reflexivity|].
  rewrite (eight_bit_kept v Hv), IH. reflexivity.
Qed.

Lemma fromarray_eight_bit (out : PIL.image) (r : Np.ndarray) :
  eight_bit_mode (PIL.im_mode out) = true ->
  Np.dtype_of r = Np.uint8 ->
  Np.shape r = Np.shape (PIL.np_array out) ->
  PIL.fromarray r
  = Ok {| PIL.im_mode := PIL.im_mode out; PIL.width := PIL.width out;
          PIL.height := PIL.height out; PIL.pixels := Np.data r |}.
Proof.
  intros Hm Hd Hs. unfold PIL.fromarray. rewrite Hd, Hs.
  unfold PIL.np_array; simpl.
  destruct (PIL.im_mode out); try discriminate; reflexivity.
Qed.

(** The conversion of lines 132 to 136 gives an 8-bit image with a sample
    above 1 back as it was. *)
Lemma eight_bit_conversion (out pic : PIL.image) (img : Np.ndarray) :
  Runner.to_uint8_image (PIL.np_array out) = Ok img ->
  PIL.fromarray img = Ok pic ->
  eight_bit_mode (PIL.im_mode out) = true ->
  Forall eight_bit (PIL.pixels out) ->
  (exists v, v ∈ PIL.pixels out /\ (1 < v)%Q) ->
  pic = out.
Proof.
  intros Himg Hpic Hmode H8 (v & Hv & Hv1).
  apply to_uint8_image_spec in Himg. destruct Himg as (m & Hm & Hd & Hs & Hdata).
  apply max_spec in Hm. destruct Hm as [_ Hall].
  rewrite Forall_forall in Hall. specialize (Hall v Hv).
  assert (Hbig : Qle_bool m 1 = false).
  { apply not_true_iff_false. rewrite Qle_bool_iff. lra. }
  rewrite Hbig in Hdata. simpl in Hdata.
  rewrite (eight_bit_array_kept _ H8) in Hdata.
  rewrite (fromarray_eight_bit out img Hmode Hd Hs), Hdata in Hpic.
  invert_eq Hpic. destruct out; reflexivity.
Qed.

(** X13. An 8-bit output image (grey or colour, with or without alpha) that
    has a sample above 1 is saved as it is: the file at the output path is
    that very image, no sample changed. *)
Theorem eight_bit_output_saved_unchanged
    (a : Runner.args) (out : PIL.image) (w w' : world) :
  Runner.save_output a out w = (Ok tt, w') ->
  eight_bit_mode (PIL.im_mode out) = true ->
  Forall eight_bit (PIL.pixels out) ->
  (exists v, v ∈ PIL.pixels out /\ (1 < v)%Q) ->
  files (fs w') !! Runner.output a = Some (FImage out).
Proof.
  intros H Hmode H8 Hbig. apply save_output_ok in H.
  destruct H as (img & pic & Himg & Hpic & Hf & _ & _).
  rewrite (eight_bit_conversion out pic img Himg Hpic Hmode H8 Hbig) in Hf.
  rewrite Hf. apply lookup_insert_eq.
Qed.

Lemma eight_bit_output_saved_unchanged_witness :
  files (fs (snd (Runner.save_output Examples.run_args Cases.colour_image
                    Examples.world_with_input)))
    !! Runner.output Examples.run_args = Some (FImage Cases.colour_image).
Proof.
  apply (eight_bit_output_saved_unchanged Examples.run_args Cases.colour_image
           Examples.world_with_input).
  - reflexivity.
  - reflexivity.
  - repeat constructor;
      match goal with
      | |- eight_bit (?n # 1) => exists n; split; [reflexivity | lia]
      end.
  - exists 10%Q. split; [apply list_elem_of_here | reflexivity].
Defined.

(** X14. An output image whose samples are all 0 or 1, an 8-bit mask for
    one, counts as normalized: every 1 is saved as 255 and every 0 as 0. *)
Theorem zero_one_output_is_scaled
    (a : Runner.args) (out : PIL.image) (w w' : world) :
  Runner.save_output a out w = (Ok tt, w') ->
  Forall (fun v => v = 0%Q \/ v = 1%Q) (PIL.pixels out) ->
  exists pic,
    files (fs w') !! Runner.output a = Some (FImage pic)
    /\ PIL.pixels pic
       = map (fun v => if Qle_bool v 0 then 0%Q else 255%Q) (PIL.pixels out).
Proof.
  intros H H01. apply save_output_ok in H.
  destruct H as (img & pic & Himg & Hpic & Hf & _ & _).
  apply to_uint8_image_spec in Himg. destruct Himg as (m & Hm & Hd & Hs & Hdata).
  destruct (fromarray_of_image out img Hd Hs) as (pic' & Hpic' & _ & _ & Hpx).
  rewrite Hpic in Hpic'. invert_eq Hpic'.
  apply max_spec in Hm. destruct Hm as [Hin _].
  rewrite Forall_forall in H01.
  assert (Hsmall : Qle_bool m 1 = true).
  { destruct (H01 m Hin) as [-> | ->]; reflexivity. }
  rewrite Hsmall in Hdata. exists pic'.
  rewrite Hf, lookup_insert_eq. split; [reflexivity|].
  rewrite Hpx, Hdata. simpl. apply map_ext_in. intros v Hv.
  apply list_elem_of_In in Hv. destruct (H01 v Hv) as [-> | ->]; reflexivity.
Qed.

Lemma zero_one_output_is_scaled_witness :
  exists pic,
    files (fs (snd (Runner.save_output Examples.run_args Cases.mask_image
                      Examples.world_with_input)))
      !! Runner.output Examples.run_args = Some (FImage pic)
    /\ PIL.pixels pic
       = map (fun v => if Qle_bool v 0 then 0%Q else 255%Q)
           (PIL.pixels Cases.mask_image).
Proof.
  apply (zero_one_output_is_scaled Examples.run_args Cases.mask_image
           Examples.world_with_input).
  - reflexivity.
  - constructor; [left; reflexivity|]. constructor; [right; reflexivity|].
    constructor.
Defined.

Lemma pixels_rgb_length (m : PIL.mode) (n : nat) (px : list Q) :
  length px = (PIL.bands m * n)%nat ->
  length (PIL.pixels_rgb m n px) = (3 * n)%nat.
Proof.
  revert px. induction n as [|n IH]; intros px H; [reflexivity|].
  rewrite Nat.mul_succ_r in H.
  destruct m; simpl in H |- *.
  - destruct px as [|v px]; simpl in H; [lia|]. simpl. rewrite IH; simpl; lia.
  - destruct px as [|v [|v' px]]; simpl in H; try lia. simpl. rewrite IH; simpl; lia.
  - destruct px as [|r [|g [|b px]]]; simpl in H; try lia.
    simpl. rewrite IH; simpl; lia.
  - destruct px as [|r [|g [|b [|al px]]]]; simpl in H; try lia.
    simpl. rewrite IH; simpl; lia.
  - destruct px as [|v px]; simpl in H; [lia|]. simpl. rewrite IH; simpl; lia.
  - destruct px as [|v px]; simpl in H; [lia|]. simpl. rewrite IH; simpl; lia.
Qed.

Lemma pixels_rgb_of_rgb (n : nat) (px : list Q) :
  length px = (3 * n)%nat -> PIL.pixels_rgb PIL.RGB n px = px.
Proof.
  revert px. induction n as [|n IH]; intros px H.
  - destruct px; [reflexivity | simpl in H; lia].
  - destruct px as [|r [|g [|b px]]]; simpl in H; try lia.
    simpl. rewrite IH by lia. reflexivity.
Qed.

Lemma clipped_is_eight_bit (v : Q) :
  eight_bit (inject_Z (Np.to_uint8 (Np.clip1 0 255 v))).
Proof.
  destruct (to_uint8_floor _ (clip1_bounds v)) as [-> Hf].
  exists (Qfloor (Np.clip1 0 255 v)). split; [reflexivity | exact Hf].
Qed.

Lemma pixels_rgb_eight_bit (m : PIL.mode) (n : nat) (px : list Q) :
  eight_bit_mode m = false \/ Forall eight_bit px ->
  Forall eight_bit (PIL.pixels_rgb m n px).
Proof.
  revert px. induction n as [|n IH]; intros px H; [constructor|].
  assert (Htl : forall v rest,
             eight_bit_mode m = false \/ Forall eight_bit (v :: rest) ->
             eight_bit_mode m = false \/ Forall eight_bit rest).
  { intros v rest [Hm|Hall]; [left; exact Hm|]. right. inversion Hall; assumption. }
  assert (Hhd : forall v rest,
             eight_bit_mode m = true ->
             eight_bit_mode m = false \/ Forall eight_bit (v :: rest) ->
             eight_bit v).
  { intros v rest Hm [Hm'|Hall]; [congruence|]. inversion Hall; assumption. }
  destruct m; simpl.
  - destruct px as [|v px]; [constructor|].
    pose proof (Hhd _ _ eq_refl H).
    do 3 (constructor; [assumption|]). eapply IH, Htl, H.
  - destruct px as [|v [|v' px]]; try solve [constructor].
    pose proof (Hhd _ _ eq_refl H).
    do 3 (constructor; [assumption|]). eapply IH, Htl, Htl, H.
  - destruct px as [|r [|g [|b px]]]; try solve [constructor].
    pose proof (Hhd _ _ eq_refl H).
    pose proof (Hhd _ _ eq_refl (Htl _ _ H)).
    pose proof (Hhd _ _ eq_refl (Htl _ _ (Htl _ _ H))).
    do 3 (constructor; [assumption|]). eapply IH, Htl, Htl, Htl, H.
  - destruct px as [|r [|g [|b [|al px]]]]; try solve [constructor].
    pose proof (Hhd _ _ eq_refl H).
    pose proof (Hhd _ _ eq_refl (Htl _ _ H)).
    pose proof (Hhd _ _ eq_refl (Htl _ _ (Htl _ _ H))).
    do 3 (constructor; [assumption|]). eapply IH, Htl, Htl, Htl, Htl, H.
  - destruct px as [|v px]; [constructor|].
    do 3 (constructor; [apply clipped_is_eight_bit|]). eapply IH, Htl, H.
  - destruct px as [|v px]; [constructor|].
    do 3 (constructor; [apply clipped_is_eight_bit|]). eapply IH, Htl, H.
Qed.

(** X10. [load_image] gives, for every well-formed image file whatever its
    mode, a 3-channel image of the same width and height with three samples
    for every pixel; the samples are 8-bit when those of the file are (and
    for the 32-bit modes, which are clipped on the way); a colour image
    without alpha comes back as it is. The file system is not touched. *)
Theorem load_image_normalises (p : path) (im : PIL.image) (w : world) :
  files (fs w) !! p = Some (FImage im) ->
  well_formed im ->
  exists img,
    Runner.load_image p w = (Ok img, logged w [Call "Image.open"])
    /\ PIL.im_mode img = PIL.RGB
    /\ PIL.width img = PIL.width im
    /\ PIL.height img = PIL.height im
    /\ well_formed img
    /\ (eight_bit_mode (PIL.im_mode im) = false \/ Forall eight_bit (PIL.pixels im) ->
        Forall eight_bit (PIL.pixels img))
    /\ (PIL.im_mode im = PIL.RGB -> img = im).
Proof.
  intros Hf Hwf. exists (PIL.convert_RGB im).
  split; [apply load_image_ok, Hf|].
  repeat split.
  - unfold well_formed. simpl. apply pixels_rgb_length. exact Hwf.
  - intros H. simpl. apply pixels_rgb_eight_bit, H.
  - intros Hm. unfold well_formed in Hwf. rewrite Hm in Hwf.
    unfold PIL.convert_RGB. rewrite Hm, pixels_rgb_of_rgb by exact Hwf.
    destruct im; simpl in *. congruence.
Qed.

Lemma load_image_normalises_witness :
  exists img,
    Runner.load_image ["grey.png"%string]
      (Examples.with_file ["grey.png"%string] (FImage Cases.grey_image)
         Examples.empty_world)
    = (Ok img,
       logged (Examples.with_file ["grey.png"%string] (FImage Cases.grey_image)
                 Examples.empty_world) [Call "Image.open"])
    /\ PIL.im_mode img = PIL.RGB
    /\ PIL.width img = PIL.width Cases.grey_image
    /\ PIL.height img = PIL.height Cases.grey_image
    /\ well_formed img
    /\ (eight_bit_mode (PIL.im_mode Cases.grey_image) = false
        \/ Forall eight_bit (PIL.pixels Cases.grey_image) ->
        Forall eight_bit (PIL.pixels img))
    /\ (PIL.im_mode Cases.grey_image = PIL.RGB -> img = Cases.grey_image).
Proof.
  apply (load_image_normalises ["grey.png"%string] Cases.grey_image).
  - reflexivity.
  - reflexivity.
Defined.

Lemma save_image_ok (im : PIL.image) (p : path) (w w' : world) :
  Runner.save_image (Runner.Image im) p w = (Ok tt, w') ->
  exists img pic,
    Runner.to_uint8_image (PIL.np_array im) = Ok img
    /\ PIL.fromarray img = Ok pic
    /\ files (fs w') = <[p := FImage pic]> (files (fs w)).
Proof.
  unfold Runner.save_image, bind, lift, Runner.Image_save.
  destruct (Runner.to_uint8_image (PIL.np_array im)) as [img|e] eqn:Himg;
    [|discriminate].
  destruct (PIL.fromarray img) as [pic|e] eqn:Hpic; [|discriminate].
  intros Hw. apply write_file_ok in Hw. destruct Hw as (Hf & _ & _).
  exists img, pic. auto.
Qed.

(** X19. Round trip of [save_image] and [load_image]: an 8-bit colour image
    without alpha, well-formed and with a sample above 1, that [save_image]
    has written to a path is read back from that path by [load_image] as
    the same image, sample for sample. *)
Theorem save_image_load_image
    (im : PIL.image) (p : path) (w w' : world) :
  Runner.save_image (Runner.Image im) p w = (Ok tt, w') ->
  PIL.im_mode im = PIL.RGB ->
  well_formed im ->
  Forall eight_bit (PIL.pixels im) ->
  (exists v, v ∈ PIL.pixels im /\ (1 < v)%Q) ->
  Runner.load_image p w' = (Ok im, logged w' [Call "Image.open"]).
Proof.
  intros H Hm Hwf H8 Hbig. apply save_image_ok in H.
  destruct H as (img & pic & Himg & Hpic & Hf).
  assert (Hmode : eight_bit_mode (PIL.im_mode im) = true) by (rewrite Hm; reflexivity).
  rewrite (eight_bit_conversion im pic img Himg Hpic Hmode H8 Hbig) in Hf.
  rewrite (load_image_ok p im) by (rewrite Hf; apply lookup_insert_eq).
  unfold well_formed in Hwf. rewrite Hm in Hwf.
  unfold PIL.convert_RGB. rewrite Hm, pixels_rgb_of_rgb by exact Hwf.
  destruct im; simpl in *. congruence.
Qed.

Lemma save_image_load_image_witness :
  Runner.load_image ["copy.png"%string]
    (snd (Runner.save_image (Runner.Image Cases.colour_image) ["copy.png"%string]
            Examples.empty_world))
  = (Ok Cases.colour_image,
     logged (snd (Runner.save_image (Runner.Image Cases.colour_image)
                    ["copy.png"%string] Examples.empty_world))
       [Call "Image.open"]).
Proof.
  apply (save_image_load_image Cases.colour_image ["copy.png"%string]
           Examples.empty_world).
  - reflexivity.
  - reflexivity.
  - reflexivity.
  - repeat constructor;
      match goal with
      | |- eight_bit (?n # 1) => exists n; split; [reflexivity | lia]
      end.
  - exists 10%Q. split; [apply list_elem_of_here | reflexivity].
Defined.

End RunnerStages.

(** ** What the runner touches, and in what order *)

(** Membership in, and inclusion between, lists of paths given in full. *)
Ltac paths_in :=
  try (let p := fresh "p" in let Hp := fresh "Hp" in intros p Hp; revert Hp);
  rewrite ?elem_of_cons, ?elem_of_nil; tauto.

(** One step of a proof that a statement is confined to a list of paths. *)
Ltac confine :=
  repeat first
    [ solve [eauto with confined]
    | apply confined_write_file; paths_in
    | apply confined_bind; [|intros ?]
    | match goal with
      | |- Inv.confined _ (if ?b then _ else _) => destruct b
      | |- Inv.confined _ (match ?x with _ => _ end) => destruct x
      end ].

Section RunnerEffects.
Import Py Sys Inv.

Lemma confined_load_model (ps : list path) (rt : Runner.runtime) (a : Runner.args) :
  confined ps (Runner.load_model rt a).
Proof.
  intros w r w' H. unfold Runner.load_model, call in H. invert_eq H.
  apply stable_same_fs. reflexivity.
Qed.

Lemma confined_load_image (ps : list path) (p : path) :
  confined ps (Runner.load_image p).
Proof. unfold Runner.load_image, Runner.Image_open. confine. Qed.

Lemma confined_run_predict (ps : list path) (rt : Runner.runtime)
    (m : CoreML.mlmodel) (inp : PIL.image) :
  confined ps (Runner.run_predict rt m inp).
Proof. unfold Runner.run_predict. confine. Qed.

Lemma confined_select_output (ps : list path) (result : dict Runner.pyobj) :
  confined ps (Runner.select_output result).
Proof. unfold Runner.select_output. confine. Qed.

Lemma confined_inspect (ps : list path) (k : string) (out : PIL.image) :
  confined ps (Runner.inspect k out).
Proof. unfold Runner.inspect. confine. Qed.

Lemma confined_dump_float (a : Runner.args) (arr : Np.ndarray) :
  confined [join (Runner.hist_dir a) "output_float.npy";
            join (Runner.hist_dir a) "hist_output_float.png"]
    (Runner.dump_float a arr).
Proof. unfold Runner.dump_float. confine. Qed.

Lemma confined_save_output (a : Runner.args) (out : PIL.image) :
  confined [Runner.output a] (Runner.save_output a out).
Proof. unfold Runner.save_output, Runner.Image_save. confine. Qed.

Lemma confined_save_histogram (a : Runner.args) (arr : Np.ndarray) :
  confined [hist_path a] (Runner.save_histogram a arr).
Proof. unfold Runner.save_histogram, hist_path. confine. Qed.

Lemma confined_handle_output (a : Runner.args) (k : string) (v : Runner.pyobj) :
  confined (runner_paths a) (Runner.handle_output a k v).
Proof.
  unfold Runner.handle_output, Runner.check_image.
  apply confined_bind; [destruct v; confine|]. intros out.
  apply confined_bind; [apply confined_inspect|]. intros arr.
  apply confined_bind;
    [eapply confined_mono; [|apply confined_dump_float];
     unfold runner_paths; paths_in|].
  intros _. apply confined_bind;
    [eapply confined_mono; [|apply confined_save_output];
     unfold runner_paths; paths_in|].
  intros _. eapply confined_mono; [|apply confined_save_histogram].
  unfold runner_paths, hist_path; paths_in.
Qed.

Lemma confined_main (rt : Runner.runtime) (a : Runner.args) :
  confined (runner_paths a) (Runner.main rt a).
Proof.
  unfold Runner.main.
  apply confined_bind; [apply confined_try, confined_load_model|].
  intros [e|m]; [confine|].
  apply confined_bind; [apply confined_load_image|]. intros inp.
  apply confined_bind; [apply confined_try, confined_run_predict|].
  intros [e|result]; [confine|].
  unfold Runner.process_result.
  apply confined_bind; [apply confined_select_output|].
  intros sel. apply confined_handle_output.
Qed.

(** X16. Whatever the model, the runtime and the files are, and however
    the run ends, the runner changes no file other than the output image
    and the three files [output_float.npy], [hist_output_float.png] and
    [hist_output.png] of the histogram directory; it removes no file and no
    directory. The model package and the input image, when they lie
    elsewhere, are as they were. *)
Theorem runner_touches_only_its_outputs
    (rt : Runner.runtime) (a : Runner.args) (w : world) :
  stable
    [ Runner.output a;
      join (Runner.hist_dir a) "output_float.npy";
      join (Runner.hist_dir a) "hist_output_float.png";
      join (Runner.hist_dir a) "hist_output.png" ]
    w (snd (Runner.run_script rt a w)).
Proof.
  unfold Runner.run_script, run.
  destruct (Runner.main rt a w) as [[[]|e] w'] eqn:H;
    apply confined_main in H; exact H.
Qed.

(** X17. For an output image of integer samples the float dump is left
    out: the steps after the selection change no file other than the output
    image and [hist_output.png]. *)
Theorem integer_output_writes_two_files
    (a : Runner.args) (k : string) (out : PIL.image) (w : world) :
  PIL.im_mode out <> PIL.F ->
  stable [Runner.output a; join (Runner.hist_dir a) "hist_output.png"]
    w (snd (Runner.handle_output a k (Runner.Image out) w)).
Proof.
  intros Hmode.
  assert (Hint : Np.is_floating (Np.dtype_of (PIL.np_array out)) = false).
  { unfold PIL.np_array; simpl. destruct (PIL.im_mode out) eqn:Hm; try reflexivity.
    exfalso. apply Hmode. reflexivity. }
  unfold Runner.handle_output, bind, Runner.check_image, ret.
  destruct (Runner.inspect k out w) as [[arr|e] w1] eqn:Hi.
  2:{ simpl. apply inspect_cases in Hi. apply stable_same_fs, Hi. }
  apply inspect_cases in Hi. destruct Hi as (Hfs & -> & _).
  rewrite (integer_dump_is_skipped a (PIL.np_array out) w1 Hint).
  assert (H1 : stable [Runner.output a; join (Runner.hist_dir a) "hist_output.png"]
                 w w1) by (apply stable_same_fs, Hfs).
  destruct (Runner.save_output a out w1) as [[[]|e] w2] eqn:Hs;
    apply confined_save_output in Hs;
    apply (stable_mono _ [Runner.output a; join (Runner.hist_dir a) "hist_output.png"])
      in Hs; try paths_in.
  2:{ simpl. eapply stable_trans; eassumption. }
  destruct (Runner.save_histogram a (PIL.np_array out) w2) as [r w3] eqn:Hh.
  apply confined_save_histogram in Hh.
  apply (stable_mono _ [Runner.output a; join (Runner.hist_dir a) "hist_output.png"])
    in Hh; [|unfold hist_path; paths_in].
  simpl. eapply stable_trans; [|exact Hh]. eapply stable_trans; eassumption.
Qed.

Lemma integer_output_writes_two_files_witness :
  stable [Runner.output Examples.run_args;
          join (Runner.hist_dir Examples.run_args) "hist_output.png"]
    Examples.world_with_input
    (snd (Runner.handle_output Examples.run_args "output_image"
            (Runner.Image Cases.colour_image) Examples.world_with_input)).
Proof.
  apply (integer_output_writes_two_files Examples.run_args "output_image"
           Cases.colour_image Examples.world_with_input).
  discriminate.
Defined.

Lemma write_file_missing_directory (f : string) (p : path) (c : file) (w : world) :
  is_dir (fs w) (dirname p) = false ->
  write_file f p c w = (Raise (FileNotFoundError p), logged w [Call f]).
Proof.
  intros Hdir. unfold write_file, bind, emit, open_write. cbn [fs log].
  rewrite Hdir, orb_true_r. reflexivity.
Qed.

Lemma to_uint8_image_of_nonempty (arr : Np.ndarray) :
  Np.data arr <> [] -> exists img, Runner.to_uint8_image arr = Ok img.
Proof.
  intros Hne. destruct (max_of_nonempty arr Hne) as [m Hm].
  unfold Runner.to_uint8_image. rewrite Hm. destruct (Qle_bool m 1); eauto.
Qed.

(** X18. The output image is written before the directory of the
    histograms is made. For an output of integer samples and an output path
    whose directory does not exist, the steps after the selection end with
    the [FileNotFoundError] of the output path, right after the four debug
    lines: no directory is asked for and nothing is written, also when the
    missing directory is the histogram directory itself. *)
Theorem output_directory_is_not_made
    (a : Runner.args) (k : string) (out : PIL.image) (w : world) :
  PIL.pixels out <> [] ->
  PIL.im_mode out <> PIL.F ->
  is_dir (fs w) (dirname (Runner.output a)) = false ->
  exists lo hi,
    Runner.handle_output a k (Runner.Image out) w
    = (Raise (FileNotFoundError (Runner.output a)),
       logged w
         [Stdout (MsgOutType k); Stdout (MsgPillowMode (PIL.im_mode out));
          Stdout (MsgDebugArray (Np.dtype_of (PIL.np_array out))
                    (Np.shape (PIL.np_array out)) lo hi);
          Stdout (MsgOutputStats lo hi (Np.dtype_of (PIL.np_array out))
                    (Np.shape (PIL.np_array out)));
          Call "Image.save"]).
Proof.
  intros Hne Hmode Hdir.
  assert (Hint : Np.is_floating (Np.dtype_of (PIL.np_array out)) = false).
  { unfold PIL.np_array; simpl. destruct (PIL.im_mode out) eqn:Hm; try reflexivity.
    exfalso. apply Hmode. reflexivity. }
  destruct (inspect_ok k out w Hne) as (lo & hi & _ & _ & Hi).
  exists lo, hi.
  unfold Runner.handle_output, bind, Runner.check_image, ret. rewrite Hi.
  rewrite (integer_dump_is_skipped a (PIL.np_array out) _ Hint).
  unfold Runner.save_output, bind, lift, Runner.Image_save.
  destruct (to_uint8_image_of_nonempty (PIL.np_array out) Hne) as [img Himg].
  rewrite Himg.
  apply to_uint8_image_spec in Himg. destruct Himg as (m & _ & Hd & Hs & _).
  destruct (fromarray_of_image out img Hd Hs) as (pic & -> & _).
  rewrite write_file_missing_directory by exact Hdir.
  rewrite logged_logged. reflexivity.
Qed.

Lemma output_directory_is_not_made_witness :
  exists lo hi,
    Runner.handle_output Cases.nested_args "output_image"
      (Runner.Image Cases.colour_image) Examples.world_with_input
    = (Raise (FileNotFoundError (Runner.output Cases.nested_args)),
       logged Examples.world_with_input
         [Stdout (MsgOutType "output_image");
          Stdout (MsgPillowMode (PIL.im_mode Cases.colour_image));
          Stdout (MsgDebugArray (Np.dtype_of (PIL.np_array Cases.colour_image))
                    (Np.shape (PIL.np_array Cases.colour_image)) lo hi);
          Stdout (MsgOutputStats lo hi (Np.dtype_of (PIL.np_array Cases.colour_image))
                    (Np.shape (PIL.np_array Cases.colour_image)));
          Call "Image.save"]).
Proof.
  apply (output_directory_is_not_made Cases.nested_args "output_image"
           Cases.colour_image Examples.world_with_input).
  - discriminate.
  - discriminate.
  - reflexivity.
Defined.

Lemma prefixes_self (p : path) : p <> [] -> p ∈ prefixes p.
Proof.
  induction p as [|c rest IH]; [congruence|]. intros _. simpl.
  destruct rest as [|c' rest'].
  - apply list_elem_of_here.
  - apply list_elem_of_further, list_elem_of_fmap. exists (c' :: rest').
    split; [reflexivity|]. apply IH. discriminate.
Qed.

Lemma makedirs_ok (p : path) (w w' : world) :
  makedirs p w = (Ok tt, w') ->
  is_dir (fs w') p = true /\ files (fs w') = files (fs w).
Proof.
  unfold makedirs, bind, emit. simpl.
  destruct (files (fs w) !! p); [discriminate|].
  intros H. invert_eq H. simpl. split; [|reflexivity].
  unfold is_dir; simpl. destruct p as [|c rest]; [reflexivity|].
  apply orb_true_iff. right. apply bool_decide_eq_true.
  apply elem_of_union_l, elem_of_list_to_set, prefixes_self. discriminate.
Qed.

Lemma save_histogram_values (a : Runner.args) (arr : Np.ndarray) (w w' : world) :
  Runner.save_histogram a arr w = (Ok tt, w') ->
  exists values,
    files (fs w') = <[hist_path a := FFigure values 256 0 255]> (files (fs w))
    /\ (Np.is_floating (Np.dtype_of arr) = false -> values = Np.data arr)
    /\ (Np.is_floating (Np.dtype_of arr) = true ->
        exists m, Np.max arr = Ok m
          /\ values = map (fun v => if Qle_bool m 1 then v * 255 else v)%Q (Np.data arr)).
Proof.
  unfold Runner.save_histogram, bind.
  destruct (makedirs (Runner.hist_dir a) w) as [[[]|e] w0] eqn:Hmk; [|discriminate].
  apply makedirs_ok in Hmk. destruct Hmk as [_ Hfiles].
  match goal with
  | |- context [let (_, _) := ?v w0 in _] =>
      destruct (v w0) as [[values|e] w1] eqn:Hv
  end; [|discriminate].
  assert (Hval : w1 = w0
            /\ (Np.is_floating (Np.dtype_of arr) = false -> values = Np.data arr)
            /\ (Np.is_floating (Np.dtype_of arr) = true ->
                exists m, Np.max arr = Ok m
                  /\ values
                     = map (fun v => if Qle_bool m 1 then v * 255 else v)%Q
                         (Np.data arr))).
  { revert Hv. unfold lift, ret, bind. simpl.
    destruct (Np.is_floating (Np.dtype_of arr)).
    - change (Np.max (Np.flatten arr)) with (Np.max arr).
      destruct (Np.max arr) as [m|e]; [|discriminate].
      destruct (Qle_bool m 1) eqn:Hm; intros H; invert_eq H;
        (split; [reflexivity|]); (split; [discriminate|]); intros _;
        exists m; rewrite Hm; (split; [reflexivity|]).
      + reflexivity.
      + symmetry. apply map_id.
    - intros H; invert_eq H. repeat split; auto. discriminate. }
  destruct Hval as (-> & Hint & Hfl).
  match goal with
  | |- context [write_file ?f ?p ?c ?w1] =>
      destruct (write_file f p c w1) as [[[]|e] w2] eqn:Hw
  end; [|discriminate].
  apply write_file_ok in Hw. destruct Hw as (Hf & _ & _).
  unfold print, emit. intros H; invert_eq H; simpl.
  exists values. unfold hist_path. rewrite Hf, Hfiles. auto.
Qed.



(** X22. For an output of integer samples the last histogram always holds
    the samples as the model gave them, also when the image itself was
    multiplied by 255 because no sample was above 1. *)
Theorem integer_histogram_is_raw
    (a : Runner.args) (k : string) (out : PIL.image) (w w' : world) :
  Runner.handle_output a k (Runner.Image out) w = (Ok tt, w') ->
  PIL.im_mode out <> PIL.F ->
  files (fs w') !! join (Runner.hist_dir a) "hist_output.png"
  = Some (FFigure (PIL.pixels out) 256 0 255).
Proof.
  unfold Runner.handle_output, bind, Runner.check_image, ret.
  destruct (Runner.inspect k out w) as [[arr|e] w1] eqn:Hi; [|discriminate].
  apply inspect_cases in Hi. destruct Hi as (_ & -> & _).
  destruct (Runner.dump_float a (PIL.np_array out) w1) as [[[]|e] w2]; [|discriminate].
  destruct (Runner.save_output a out w2) as [[[]|e] w3]; [|discriminate].
  intros Hh Hmode.
  apply save_histogram_values in Hh. destruct Hh as (values & Hf' & Hint & _).
  rewrite Hf', lookup_insert_eq, Hint; [reflexivity|].
  unfold PIL.np_array; simpl. destruct (PIL.im_mode out) eqn:Hm; try reflexivity.
  exfalso. apply Hmode. reflexivity.
Qed.

Lemma integer_histogram_is_raw_witness :
  files (fs (snd (Runner.handle_output Examples.run_args "output_image"
                    (Runner.Image Cases.mask_image) Examples.world_with_input)))
    !! join (Runner.hist_dir Examples.run_args) "hist_output.png"
  = Some (FFigure (PIL.pixels Cases.mask_image) 256 0 255).
Proof.
  apply (integer_histogram_is_raw Examples.run_args "output_image"
           Cases.mask_image Examples.world_with_input).
  - vm_compute. reflexivity.
  - discriminate.
Defined.

End RunnerEffects.

